(** * scripts/smiles_to_image.py: SMILES text to a 2D drawing (PNG or SVG)

    A shallow embedding of the script and the properties of its
    command-line behaviour.

    Modelling conventions.
    - A Python [str] is a [string]: one [ascii] per code point, so the
      model covers text whose code points are below 256 (Latin-1).  The
      string methods used by the script ([strip], [splitlines], [lower],
      [rfind]) are written out for that range.
    - [pathlib.Path] is the list of its parts, resolved against one
      root directory ([[]] is that directory itself, as [Path('.')]).
      There are no symbolic links and no [..] parts.
    - The file system is a tree; the script runs in a small monad that
      threads the tree and carries Python exceptions.
    - [argparse], RDKit and the imaging library are parameters of the
      development (class [Library]): the script only calls them. *)

From Stdlib Require Import String Ascii ZArith List Bool Lia.
From stdpp Require Import gmap strings.

Open Scope string_scope.
Open Scope list_scope.

(** ** Python string methods *)

Module PyStr.

Definition ord (c : ascii) : N := N_of_ascii c.

(** [str.isspace] on one code point below 256: TAB, LF, VT, FF, CR,
    FS, GS, RS, US, SPACE, NEL and NBSP. *)
Definition isspace (c : ascii) : bool :=
  let n := ord c in
  ((9 <=? n) && (n <=? 13) || (28 <=? n) && (n <=? 32)
   || (n =? 133) || (n =? 160))%N.

(** Line boundaries of [str.splitlines] below 256: LF, VT, FF, CR, FS,
    GS, RS and NEL (CR LF counts as one boundary). *)
Definition islinebreak (c : ascii) : bool :=
  let n := ord c in
  ((10 <=? n) && (n <=? 13) || (28 <=? n) && (n <=? 30) || (n =? 133))%N.

Definition LF : ascii := "010"%char.
Definition CR : ascii := "013"%char.

Fixpoint lstrip (s : string) : string :=
  match s with
  | EmptyString => EmptyString
  | String c r => if isspace c then lstrip r else s
  end.

Fixpoint rstrip (s : string) : string :=
  match s with
  | EmptyString => EmptyString
  | String c r =>
      match rstrip r with
      | EmptyString => if isspace c then EmptyString else String c EmptyString
      | r' => String c r'
      end
  end.

(** [s.strip()] *)
Definition strip (s : string) : string := rstrip (lstrip s).

(** [s.splitlines()]: the lines of [s] without their boundaries; a final
    boundary does not open a further line, and the empty text has no
    line at all. *)
Fixpoint splitlines (s : string) : list string :=
  match s with
  | EmptyString => []
  | String c r =>
      if islinebreak c then
        EmptyString ::
          (if Ascii.eqb c CR then
             match r with
             | String c' r' => if Ascii.eqb c' LF then splitlines r' else splitlines r
             | EmptyString => splitlines r
             end
           else splitlines r)
      else
        match splitlines r with
        | [] => [String c EmptyString]
        | l :: ls => String c l :: ls
        end
  end.

(** [str.lower] on one code point below 256: A-Z and the capital
    letters of Latin-1 (all of 0xC0-0xDE but the multiplication sign). *)
Definition lower_char (c : ascii) : ascii :=
  let n := ord c in
  if ((65 <=? n) && (n <=? 90)
      || (192 <=? n) && (n <=? 222) && negb (n =? 215))%N
  then ascii_of_N (n + 32) else c.

Fixpoint lower (s : string) : string :=
  match s with
  | EmptyString => EmptyString
  | String c r => String (lower_char c) (lower r)
  end.

(** [s.rfind(c)], with [None] for Python's -1. *)
Fixpoint rfind (c : ascii) (s : string) : option nat :=
  match s with
  | EmptyString => None
  | String a r =>
      match rfind c r with
      | Some i => Some (S i)
      | None => if Ascii.eqb a c then Some O else None
      end
  end.

(** [bool(s)] *)
Definition truthy (s : string) : bool := negb (String.eqb s "").

(** The slice [s[i:]]. *)
Definition slice_from (i : nat) (s : string) : string :=
  substring i (String.length s - i) s.

(** [needle in s] as a proposition. *)
Definition contains (s needle : string) : Prop :=
  exists pre post, s = pre +:+ needle +:+ post.

(** A string is trimmed when neither its first nor its last character
    is white space. *)
Definition head_space (s : string) : bool :=
  match s with
  | String c _ => isspace c
  | EmptyString => false
  end.

Fixpoint last_space (s : string) : bool :=
  match s with
  | EmptyString => false
  | String c EmptyString => isspace c
  | String _ r => last_space r
  end.

Definition trimmed (s : string) : Prop :=
  head_space s = false /\ last_space s = false.

End PyStr.

(** ** pathlib *)

Module PurePath.

(** The parts of a path, outermost first. *)
Definition Path := list string.

(** [p.parent]; the root directory is its own parent. *)
Definition parent (p : Path) : Path := removelast p.

(** [p.name]: the last part, empty for the root directory. *)
Definition name (p : Path) : string := List.last p "".

(** [p.suffix], as [pathlib] computes it in Python 3.4 to 3.13:
<<
    i = name.rfind('.')
    if 0 < i < len(name) - 1: return name[i:]
    else: return ''
>> *)
Definition suffix (p : Path) : string :=
  let nm := name p in
  match PyStr.rfind "." nm with
  | Some i =>
      if (0 <? i)%nat && (i <? String.length nm - 1)%nat
      then PyStr.slice_from i nm else ""
  | None => ""
  end.

End PurePath.

(** ** Exceptions and the process outcome *)

(** The exceptions of Python that the script can meet;
    [ImageSaveError] and [DrawingError] stand for whatever the imaging
    library and the SVG drawer raise. *)
Inductive exception :=
| FileNotFoundError
| NotADirectoryError
| IsADirectoryError
| FileExistsError
| UnicodeDecodeError
| IndexError
| ImageSaveError
| DrawingError.

(** How a run can stop early: [raise SystemExit(msg)], or an exception
    that nothing catches. *)
Inductive error :=
| SystemExit (msg : string)
| Uncaught (e : exception).

Inductive result (A : Type) :=
| Ok (a : A)
| Raise (e : error).
Arguments Ok {A} a.
Arguments Raise {A} e.

(** The interpreter's exit status: 0 on a normal return; 1 both for a
    [SystemExit] carrying a string and for an uncaught exception. *)
Definition exit_status {A} (r : result A) : Z :=
  match r with
  | Ok _ => 0
  | Raise _ => 1
  end.

(** What the interpreter writes on standard error when the run stops:
    the argument of [SystemExit], or a traceback. *)
Inductive stderr_output :=
| Nothing
| Message (msg : string)
| Traceback (e : exception).

Definition stderr_of {A} (r : result A) : stderr_output :=
  match r with
  | Ok _ => Nothing
  | Raise (SystemExit msg) => Message msg
  | Raise (Uncaught e) => Traceback e
  end.

(** ** The file system *)

Module FS.
Import PurePath.

(** What a file holds: [Text s] is a text file that [read_text()]
    returns as [s] and that [write_text(s)] leaves behind; [Binary b]
    is a file of raw bytes, as the imaging library writes. *)
Inductive content :=
| Text (s : string)
| Binary (b : list Byte.byte).

#[warning="-register-all"]
Inductive node :=
| File (c : content)
| Dir (children : gmap string node).

(** The node a path leads to, if any. *)
Fixpoint lookup_path (p : Path) (n : node) : option node :=
  match p with
  | [] => Some n
  | c :: rest =>
      match n with
      | File _ => None
      | Dir ch =>
          match ch !! c with
          | Some sub => lookup_path rest sub
          | None => None
          end
      end
  end.

Definition is_dir (p : Path) (n : node) : bool :=
  match lookup_path p n with
  | Some (Dir _) => true
  | _ => false
  end.

(** Some directory on the way to [p], or [p] itself, is a file. *)
Fixpoint blocked (p : Path) (n : node) : bool :=
  match n with
  | File _ => true
  | Dir ch =>
      match p with
      | [] => false
      | c :: rest =>
          match ch !! c with
          | Some sub => blocked rest sub
          | None => false
          end
      end
  end.

(** Path resolution as the system calls report it. *)
Fixpoint stat (p : Path) (n : node) : result node :=
  match p with
  | [] => Ok n
  | c :: rest =>
      match n with
      | File _ => Raise (Uncaught NotADirectoryError)
      | Dir ch =>
          match ch !! c with
          | Some sub => stat rest sub
          | None => Raise (Uncaught FileNotFoundError)
          end
      end
  end.

(** [p.mkdir(parents=True, exist_ok=True)]: every missing directory on
    the way to [p], and [p] itself, is created; directories that exist
    are kept; a file on the way (or at [p]) makes the call raise and
    nothing is created. *)
Fixpoint mkdir_parents (p : Path) (n : node) : result node :=
  match p, n with
  | [], Dir _ => Ok n
  | [], File _ => Raise (Uncaught FileExistsError)
  | _ :: _, File _ => Raise (Uncaught NotADirectoryError)
  | c :: rest, Dir ch =>
      match mkdir_parents rest (default (Dir ∅) (ch !! c)) with
      | Ok sub => Ok (Dir (<[c := sub]> ch))
      | Raise e => Raise e
      end
  end.

(** Opening [p] for writing and storing [c]: the file is created or
    truncated; its directory must exist and [p] must not be a
    directory. *)
Fixpoint write_file (p : Path) (c : content) (n : node) : result node :=
  match p, n with
  | [], _ => Raise (Uncaught IsADirectoryError)
  | _ :: _, File _ => Raise (Uncaught NotADirectoryError)
  | [nm], Dir ch =>
      match ch !! nm with
      | Some (Dir _) => Raise (Uncaught IsADirectoryError)
      | _ => Ok (Dir (<[nm := File c]> ch))
      end
  | d :: rest, Dir ch =>
      match ch !! d with
      | None => Raise (Uncaught FileNotFoundError)
      | Some sub =>
          match write_file rest c sub with
          | Ok sub' => Ok (Dir (<[d := sub']> ch))
          | Raise e => Raise e
          end
      end
  end.

End FS.

(** ** The monad of the script: a file system threaded through calls
    that may raise *)

Definition io (A : Type) : Type := FS.node -> result A * FS.node.

Definition ret {A} (a : A) : io A := fun fs => (Ok a, fs).

Definition raise {A} (e : error) : io A := fun fs => (Raise e, fs).

Definition bind {A B} (m : io A) (k : A -> io B) : io B :=
  fun fs =>
    match m fs with
    | (Ok a, fs') => k a fs'
    | (Raise e, fs') => (Raise e, fs')
    end.

Notation "'let*' x ':=' m 'in' k" := (bind m (fun x => k))
  (at level 10, x name, m at level 100, k at level 200, only parsing).

(** A call that only inspects the file system. *)
Definition inspect {A} (f : FS.node -> result A) : io A :=
  fun fs => (f fs, fs).

(** A call that changes the file system, or raises and leaves it. *)
Definition update (f : FS.node -> result FS.node) : io unit :=
  fun fs =>
    match f fs with
    | Ok fs' => (Ok tt, fs')
    | Raise e => (Raise e, fs)
    end.

(** ** The script *)

Import PurePath.

(** The [argparse.Namespace] returned by [parse_args]: [--smiles] and
    [--input] are [None] when not given, [--output] is required and
    [--size] defaults to 400 300. *)
Record Namespace := {
  smiles : option string;
  input : option Path;
  output : Path;
  size : Z * Z
}.

Definition default_size : Z * Z := (400, 300)%Z.

Definition no_source_message : string :=
  "Please provide a SMILES string with --smiles or --input.".

Definition invalid_smiles_message (smiles : string) : string :=
  "Invalid SMILES string: " +:+ smiles.

(** What [parse_args()] makes of a command line: [argparse] returns
    the [Namespace]; or it rejects the command line (no [--output], a
    [--size] that is not two integers, an unknown option), prints its
    usage message on standard error and exits with status 2; or, for
    [--help], it prints the help text on standard output and exits
    with status 0. *)
Inductive parsed :=
| Parsed (args : Namespace)
| UsageError (message : string)
| HelpShown.

(** What the encoder behind [image.save(path)] does once the file is
    open: it writes the bytes of the image, or it writes some bytes and
    raises. *)
Inductive encoding :=
| Complete (b : list Byte.byte)
| Broken (partial : list Byte.byte).

(** *** The libraries the script calls

    [argparse], RDKit, the imaging library behind [Draw.MolToImage] and
    the text decoder of [read_text] are outside the script: it is
    written against this interface. *)
Class Library := {
  (** RDKit molecules and PIL images. *)
  Mol : Type;
  Image : Type;
  (** [Chem.MolFromSmiles]: a molecule, or [None] for text it cannot
      parse. *)
  MolFromSmiles : string -> option Mol;
  (** [AllChem.Compute2DCoords] updates the molecule in place. *)
  Compute2DCoords : Mol -> Mol;
  (** The text [GetDrawingText()] returns once a [MolDraw2DSVG] of the
      given width and height has drawn the molecule, or [None] when the
      drawer raises (as it does for a width or height that is no C
      int). *)
  MolDraw2DSVG : Z -> Z -> Mol -> option string;
  (** [Draw.MolToImage(molecule, size=size)] *)
  MolToImage : Mol -> Z * Z -> Image;
  (** [image.save(path)] up to the file: [None] when the library raises
      before it opens the file ([MolToImage] gave no image, or there is
      no format for the extension of the path); otherwise what the
      encoder of the format does once the file is open. *)
  encode : Image -> Path -> option encoding;
  (** The decoder behind [read_text()] for a file that holds bytes. *)
  decode : list Byte.byte -> option string;
  (** [parser.parse_args()] for the parser that [parse_args] builds. *)
  parse_args : list string -> parsed
}.

Section Script.

Context `{lib : Library}.

(** *** File operations of [pathlib] and of the imaging library *)

Definition read_text (p : Path) : io string :=
  inspect (fun fs =>
    match FS.stat p fs with
    | Raise e => Raise e
    | Ok (FS.Dir _) => Raise (Uncaught IsADirectoryError)
    | Ok (FS.File (FS.Text s)) => Ok s
    | Ok (FS.File (FS.Binary b)) =>
        match decode b with
        | Some s => Ok s
        | None => Raise (Uncaught UnicodeDecodeError)
        end
    end).

Definition mkdir (p : Path) : io unit := update (FS.mkdir_parents p).

Definition write_text (p : Path) (s : string) : io unit :=
  update (FS.write_file p (FS.Text s)).

(** [image.save(p)]: the format is found first; then the file is
    opened for writing, which creates or truncates it; then the
    encoder runs.  When the encoder raises, the library removes the file
    if the call created it, and leaves what was written otherwise. *)
Definition image_save (image : Image) (p : Path) : io unit :=
  match encode image p with
  | None => raise (Uncaught ImageSaveError)
  | Some (Complete b) => update (FS.write_file p (FS.Binary b))
  | Some (Broken partial) =>
      fun fs =>
        match FS.write_file p (FS.Binary partial) fs with
        | Raise e => (Raise e, fs)
        | Ok fs' =>
            (Raise (Uncaught ImageSaveError),
             match FS.lookup_path p fs with
             | Some _ => fs'
             | None => fs
             end)
        end
  end.

(** The drawer of the SVG branch: [MolDraw2DSVG(width, height)],
    [DrawMolecule], [FinishDrawing], [GetDrawingText()]. *)
Definition drawing_text (width height : Z) (molecule : Mol) : io string :=
  match MolDraw2DSVG width height molecule with
  | Some text => ret text
  | None => raise (Uncaught DrawingError)
  end.

(** *** The functions of the script *)

(** [bool(args.smiles)]: false for [None] and for the empty string. *)
Definition smiles_given (args : Namespace) : bool :=
  match smiles args with
  | Some s => PyStr.truthy s
  | None => false
  end.

(**
<<
def read_smiles(args):
    if args.smiles:
        if args.smiles == "-":
            return sys.stdin.read().strip()
        return args.smiles.strip()
    if args.input:
        return args.input.read_text().splitlines()[0].strip()
    raise SystemExit("Please provide a SMILES string with --smiles or --input.")
>>
    [stdin] is the text waiting on standard input, as decoded text. *)
Definition read_smiles (args : Namespace) (stdin : string) : io string :=
  if smiles_given args then
    let s := default "" (smiles args) in
    if String.eqb s "-" then ret (PyStr.strip stdin)
    else ret (PyStr.strip s)
  else
    match input args with
    | Some p =>
        let* text := read_text p in
        match PyStr.splitlines text with
        | first :: _ => ret (PyStr.strip first)
        | [] => raise (Uncaught IndexError)
        end
    | None => raise (SystemExit no_source_message)
    end.

(**
<<
def build_molecule(smiles):
    molecule = Chem.MolFromSmiles(smiles)
    if molecule is None:
        raise SystemExit(f"Invalid SMILES string: {smiles}")
    AllChem.Compute2DCoords(molecule)
    return molecule
>> *)
Definition build_molecule (smiles : string) : io Mol :=
  match MolFromSmiles smiles with
  | None => raise (SystemExit (invalid_smiles_message smiles))
  | Some molecule => ret (Compute2DCoords molecule)
  end.

(**
<<
def save_drawing(molecule, output_path, size):
    output_path.parent.mkdir(parents=True, exist_ok=True)
    suffix = output_path.suffix.lower()
    if suffix == ".svg":
        drawer = Draw.rdMolDraw2D.MolDraw2DSVG(size[0], size[1])
        drawer.DrawMolecule(molecule)
        drawer.FinishDrawing()
        output_path.write_text(drawer.GetDrawingText())
    else:
        image = Draw.MolToImage(molecule, size=size)
        image.save(output_path)
>> *)
Definition save_drawing (molecule : Mol) (output_path : Path) (size : Z * Z)
  : io unit :=
  let* _ := mkdir (parent output_path) in
  let suffix := PyStr.lower (suffix output_path) in
  if String.eqb suffix ".svg" then
    let* text := drawing_text (fst size) (snd size) molecule in
    write_text output_path text
  else
    image_save (MolToImage molecule size) output_path.

(**
<<
def main():
    args = parse_args()
    smiles = read_smiles(args)
    molecule = build_molecule(smiles)
    save_drawing(molecule, args.output, tuple(args.size))
>>
    [args] is the [Namespace] that [parse_args()] returned; [script]
    below runs both steps. *)
Definition main (args : Namespace) (stdin : string) : io unit :=
  let* smiles := read_smiles args stdin in
  let* molecule := build_molecule smiles in
  save_drawing molecule (output args) (size args).

(** The script run on a command line: [main()] with [parse_args()]
    reading that command line.  The result is the exit status of the
    process, what it wrote on standard error, and the file system. *)
Definition script (argv : list string) (stdin : string) (fs : FS.node)
  : Z * stderr_output * FS.node :=
  match parse_args argv with
  | Parsed args =>
      let run := main args stdin fs in
      (exit_status (fst run), stderr_of (fst run), snd run)
  | UsageError message => (2%Z, Message message, fs)
  | HelpShown => (0%Z, Nothing, fs)
  end.

End Script.


(** [args] with another value for [--smiles]. *)
Definition with_smiles (v : option string) (args : Namespace) : Namespace :=
  {| smiles := v; input := input args; output := output args;
     size := size args |}.

(** ** The specification's wording, for comparison with the script *)

Section Specification.

Context `{lib : Library}.

(** Input resolution, one source in priority order: the inline text,
    standard input for the sentinel, else the first line of the input
    file; the text is trimmed. *)
Inductive resolves_spec (args : Namespace) (stdin : string) (fs : FS.node)
  : string -> Prop :=
| resolves_inline s :
    smiles args = Some s -> s <> "" -> s <> "-" ->
    resolves_spec args stdin fs (PyStr.strip s)
| resolves_stdin :
    smiles args = Some "-" ->
    resolves_spec args stdin fs (PyStr.strip stdin)
| resolves_file p text first rest :
    smiles args = None \/ smiles args = Some "" ->
    input args = Some p ->
    read_text p fs = (Ok text, fs) ->
    PyStr.splitlines text = first :: rest ->
    resolves_spec args stdin fs (PyStr.strip first).

End Specification.

(** "The first non-empty line" of a text. *)
Definition first_nonempty_line_spec (text : string) : option string :=
  List.find PyStr.truthy (PyStr.splitlines text).

(** ** Stand-ins for the libraries, and sample runs *)

Module Examples.

Definition nl : string := String PyStr.LF "".

(** A parser that rejects one text only; like RDKit, it takes the empty
    text for the molecule without atoms. *)
Definition lenient_parse (s : string) : option string :=
  if String.eqb s "not_a_molecule" then None else Some s.

(** A parser that knows ethanol only. *)
Definition strict_parse (s : string) : option string :=
  if String.eqb s "CCO" then Some s else None.

(** An encoder that knows two extensions: it writes [.png], and for
    [.jpg] it raises once the file is open. *)
Definition png_encode (image : string) (p : Path) : option encoding :=
  if String.eqb (PyStr.lower (suffix p)) ".png"
  then Some (Complete (list_byte_of_string ("PNG " +:+ image)))
  else if String.eqb (PyStr.lower (suffix p)) ".jpg"
  then Some (Broken [])
  else None.

(** A drawer that raises for a width or height that is no C int. *)
Definition c_int (z : Z) : bool := ((- 2 ^ 31 <=? z) && (z <? 2 ^ 31))%Z.

Definition svg_drawer (width height : Z) (m : string) : option string :=
  if c_int width && c_int height
  then Some ("<svg>" +:+ m +:+ "</svg>") else None.

(** A command-line parser that knows a few command lines. *)
Definition few_command_lines (argv : list string) : parsed :=
  match argv with
  | ["--smiles"; s; "--output"; o] =>
      Parsed {| smiles := Some s; input := None; output := [o];
                size := default_size |}
  | ["--input"; i; "--output"; o] =>
      Parsed {| smiles := None; input := Some [i]; output := [o];
                size := default_size |}
  | ["--output"; o] =>
      Parsed {| smiles := None; input := None; output := [o];
                size := default_size |}
  | ["--help"] => HelpShown
  | _ => UsageError "the following arguments are required: --output"
  end.

Definition library_with (parse : string -> option string) : Library :=
  {| Mol := string;
     Image := string;
     MolFromSmiles := parse;
     Compute2DCoords := fun m => m;
     MolDraw2DSVG := svg_drawer;
     MolToImage := fun m _ => m;
     encode := png_encode;
     decode := fun _ => None;
     parse_args := few_command_lines |}.

Definition lenient : Library := library_with lenient_parse.
Definition strict : Library := library_with strict_parse.

Definition empty_fs : FS.node := FS.Dir ∅.

Definition fs_with (name text : string) : FS.node :=
  FS.Dir (<[name := FS.File (FS.Text text)]> ∅).

Definition inline (s : string) (out : Path) : Namespace :=
  {| smiles := Some s; input := None; output := out; size := default_size |}.

Definition from_file (p out : Path) : Namespace :=
  {| smiles := None; input := Some p; output := out; size := default_size |}.

Definition no_source (out : Path) : Namespace :=
  {| smiles := None; input := None; output := out; size := default_size |}.

End Examples.

(** ** Further vocabulary for stating properties *)

Module Text.
Import PyStr.

(** Every character of the text is white space. *)
Fixpoint all_space (s : string) : bool :=
  match s with
  | EmptyString => true
  | String c r => isspace c && all_space r
  end.

(** Some character of the text is a line boundary. *)
Fixpoint has_linebreak (s : string) : bool :=
  match s with
  | EmptyString => false
  | String c r => islinebreak c || has_linebreak r
  end.

End Text.

(** [args] with another value for [--input]. *)
Definition with_input (v : option Path) (args : Namespace) : Namespace :=
  {| smiles := smiles args; input := v; output := output args;
     size := size args |}.
(** ** Facts about the string methods *)

Module PyStrFacts.
Import PyStr.

Lemma lstrip_head s : head_space (lstrip s) = false.
Proof.
  induction s as [|c r IH]; simpl; [reflexivity|].
  destruct (isspace c) eqn:E; [exact IH|]. simpl. exact E.
Qed.

Lemma rstrip_cons c r :
  rstrip (String c r) = EmptyString \/ exists r', rstrip (String c r) = String c r'.
Proof.
  simpl. destruct (rstrip r); [destruct (isspace c)|]; eauto.
Qed.

Lemma rstrip_head s : head_space s = false -> head_space (rstrip s) = false.
Proof.
  destruct s as [|c r]; [reflexivity|]. intros H.
  destruct (rstrip_cons c r) as [->|[r' ->]]; [reflexivity|exact H].
Qed.

Lemma rstrip_last s : last_space (rstrip s) = false.
Proof.
  induction s as [|c r IH]; simpl; [reflexivity|].
  destruct (rstrip r) as [|c' r'] eqn:E.
  - destruct (isspace c) eqn:Ec; simpl; [reflexivity|exact Ec].
  - exact IH.
Qed.

Lemma strip_trimmed s : trimmed (strip s).
Proof.
  split; [apply rstrip_head, lstrip_head | apply rstrip_last].
Qed.

Lemma lstrip_id s : head_space s = false -> lstrip s = s.
Proof. destruct s as [|c r]; simpl; [reflexivity|]. intros ->. reflexivity. Qed.

Lemma rstrip_id s : last_space s = false -> rstrip s = s.
Proof.
  induction s as [|c r IH]; [reflexivity|]. intros H.
  destruct r as [|c' r'].
  - simpl in *. rewrite H. reflexivity.
  - change (last_space (String c (String c' r'))) with (last_space (String c' r')) in H.
    change (rstrip (String c (String c' r'))) with
      (match rstrip (String c' r') with
       | EmptyString => if isspace c then EmptyString else String c EmptyString
       | r0 => String c r0
       end).
    rewrite (IH H). reflexivity.
Qed.

Lemma trimmed_strip s : trimmed s -> strip s = s.
Proof.
  intros [Hh Hl]. unfold strip. rewrite (lstrip_id _ Hh). apply rstrip_id, Hl.
Qed.

Lemma strip_idempotent s : strip (strip s) = strip s.
Proof. apply trimmed_strip, strip_trimmed. Qed.

Lemma truthy_false s : truthy s = false <-> s = "".
Proof.
  unfold truthy. destruct (String.eqb_spec s ""); simpl; split; congruence.
Qed.

Lemma truthy_true s : truthy s = true <-> s <> "".
Proof.
  unfold truthy. destruct (String.eqb_spec s ""); simpl; split; congruence.
Qed.

Lemma contains_suffix pre s : contains (pre +:+ s) s.
Proof.
  exists pre, "". f_equal.
  induction s as [|c r IH]; [reflexivity|].
  change (String c r = String c (r +:+ "")). f_equal. exact IH.
Qed.

End PyStrFacts.

(** ** Facts about the file system *)

Module FSFacts.
Import PurePath FS.

Lemma is_dir_cons c q ch :
  is_dir (c :: q) (Dir ch) =
  match ch !! c with Some sub => is_dir q sub | None => false end.
Proof. unfold is_dir. simpl. destruct (ch !! c); reflexivity. Qed.

Lemma lookup_path_cons c q ch :
  lookup_path (c :: q) (Dir ch) =
  match ch !! c with Some sub => lookup_path q sub | None => None end.
Proof. reflexivity. Qed.

Lemma lookup_path_below_file q c : q <> [] -> lookup_path q (File c) = None.
Proof. destruct q; [congruence|reflexivity]. Qed.

Lemma lookup_path_below_empty q : q <> [] -> lookup_path q (Dir ∅) = None.
Proof.
  destruct q as [|c q]; [congruence|]. intros _.
  rewrite lookup_path_cons, lookup_empty. reflexivity.
Qed.

Lemma blocked_empty p : blocked p (Dir ∅) = false.
Proof. destruct p as [|c p]; simpl; [|rewrite lookup_empty]; reflexivity. Qed.

(** [mkdir_parents] succeeds exactly when no file is in the way. *)
Lemma mkdir_parents_blocked p : forall n,
  blocked p n = false <-> exists n', mkdir_parents p n = Ok n'.
Proof.
  induction p as [|c p IH]; intros [f|ch]; simpl.
  - split; [discriminate|intros [? ?]; discriminate].
  - split; eauto.
  - split; [discriminate|intros [? ?]; discriminate].
  - destruct (ch !! c) as [sub|] eqn:E; simpl.
    + rewrite IH. split; intros [n' Hn'].
      * rewrite Hn'. eauto.
      * destruct (mkdir_parents p sub); [eauto|discriminate].
    + split; [intros _|reflexivity].
      destruct (proj1 (IH (Dir ∅)) (blocked_empty p)) as [n' ->]. eauto.
Qed.

Lemma mkdir_parents_inv c p ch n' :
  mkdir_parents (c :: p) (Dir ch) = Ok n' ->
  exists sub, mkdir_parents p (default (Dir ∅) (ch !! c)) = Ok sub
              /\ n' = Dir (<[c := sub]> ch).
Proof.
  simpl. destruct (mkdir_parents p _) as [sub|]; [|discriminate].
  intros [= <-]. eauto.
Qed.

Lemma mkdir_parents_dir p : forall n n',
  mkdir_parents p n = Ok n' -> exists ch, n' = Dir ch.
Proof.
  destruct p as [|c p]; intros [f|ch] n'; simpl; try discriminate.
  - intros [= <-]. eauto.
  - destruct (mkdir_parents p _); [|discriminate]. intros [= <-]. eauto.
Qed.

(** After [mkdir_parents p], every directory down to [p] exists. *)
Lemma mkdir_parents_is_dir p : forall n n' q,
  mkdir_parents p n = Ok n' -> q `prefix_of` p -> is_dir q n' = true.
Proof.
  induction p as [|c p IH]; intros n n' q Hm Hq.
  - apply prefix_nil_inv in Hq. subst q.
    destruct (mkdir_parents_dir _ _ _ Hm) as [ch ->]. reflexivity.
  - destruct q as [|c' q].
    + destruct (mkdir_parents_dir _ _ _ Hm) as [ch ->]. reflexivity.
    + destruct n as [f|ch]; [discriminate|].
      apply mkdir_parents_inv in Hm as (sub & Hsub & ->).
      pose proof (prefix_cons_inv_1 _ _ _ _ Hq) as ->.
      apply prefix_cons_inv_2 in Hq.
      rewrite is_dir_cons, lookup_insert_eq. eauto.
Qed.

(** [mkdir_parents p] changes nothing off the way to [p]. *)
Lemma mkdir_parents_frame p : forall n n' q,
  mkdir_parents p n = Ok n' -> ~ q `prefix_of` p ->
  lookup_path q n' = lookup_path q n.
Proof.
  induction p as [|c p IH]; intros n n' q Hm Hq.
  - destruct n as [f|ch]; simpl in Hm; [discriminate|]. congruence.
  - destruct n as [f|ch]; [discriminate|].
    apply mkdir_parents_inv in Hm as (sub & Hsub & ->).
    destruct q as [|c' q]; [destruct Hq; apply prefix_nil|].
    rewrite !lookup_path_cons.
    destruct (decide (c = c')) as [<-|Hne].
    + rewrite lookup_insert_eq.
      assert (Hq' : ~ q `prefix_of` p) by (intros Hp; apply Hq, prefix_cons, Hp).
      rewrite (IH _ _ _ Hsub Hq').
      destruct (ch !! c) as [sub0|]; [reflexivity|]. simpl.
      apply lookup_path_below_empty. intros ->. apply Hq', prefix_nil.
    + rewrite lookup_insert_ne by exact Hne. reflexivity.
Qed.


Lemma parent_cons c d p : parent (c :: d :: p) = c :: parent (d :: p).
Proof. reflexivity. Qed.

Lemma write_file_single nm c ch n' :
  write_file [nm] c (Dir ch) = Ok n' ->
  n' = Dir (<[nm := File c]> ch) /\ forall ch', ch !! nm <> Some (Dir ch').
Proof.
  simpl. destruct (ch !! nm) as [[f|ch0]|]; try discriminate;
    intros [= <-]; split; congruence.
Qed.

Lemma write_file_deep_eq d e p c ch :
  write_file (d :: e :: p) c (Dir ch) =
  match ch !! d with
  | None => Raise (Uncaught FileNotFoundError)
  | Some sub =>
      match write_file (e :: p) c sub with
      | Ok sub' => Ok (Dir (<[d := sub']> ch))
      | Raise err => Raise err
      end
  end.
Proof. reflexivity. Qed.

Lemma write_file_deep d e p c ch n' :
  write_file (d :: e :: p) c (Dir ch) = Ok n' ->
  exists sub sub', ch !! d = Some sub /\ write_file (e :: p) c sub = Ok sub'
                   /\ n' = Dir (<[d := sub']> ch).
Proof.
  rewrite write_file_deep_eq. destruct (ch !! d) as [sub|]; [|discriminate].
  destruct (write_file (e :: p) c sub) as [sub'|] eqn:E; [|discriminate].
  intros [= <-]. exists sub, sub'. auto.
Qed.

Ltac write_file_cases p n Hw :=
  destruct n as [?f|?ch]; [destruct p; discriminate Hw|];
  destruct p as [|?e ?p];
  [apply write_file_single in Hw as [-> ?Hnd]
  |apply write_file_deep in Hw as (?sub & ?sub' & ?Hd & ?Hsub & ->)].

(** The file written is found at its path. *)
Lemma write_file_lookup p : forall c n n',
  write_file p c n = Ok n' -> lookup_path p n' = Some (File c).
Proof.
  induction p as [|d p IH]; intros c n n' Hw; [discriminate|].
  write_file_cases p n Hw; rewrite lookup_path_cons, lookup_insert_eq; eauto.
Qed.

(** Writing a file changes nothing off the way to it. *)
Lemma write_file_frame p : forall c n n' q,
  write_file p c n = Ok n' -> ~ q `prefix_of` p ->
  lookup_path q n' = lookup_path q n.
Proof.
  induction p as [|d p IH]; intros c n n' q Hw Hq; [discriminate|].
  destruct q as [|c' q]; [destruct Hq; apply prefix_nil|].
  write_file_cases p n Hw; rewrite !lookup_path_cons;
    (destruct (decide (d = c')) as [<-|Hne];
     [rewrite lookup_insert_eq|rewrite lookup_insert_ne by exact Hne; reflexivity]).
  - assert (q <> []) by (intros ->; apply Hq; reflexivity).
    rewrite lookup_path_below_file by assumption.
    destruct (ch !! d) as [[f|ch0]|]; [|destruct (Hnd ch0); reflexivity|reflexivity].
    rewrite lookup_path_below_file by assumption. reflexivity.
  - rewrite Hd. eapply IH; [eassumption|].
    intros Hp. apply Hq, prefix_cons, Hp.
Qed.

(** A file is written only into directories that exist, and they stay. *)
Lemma write_file_parents p : forall c n n' q,
  write_file p c n = Ok n' -> q `prefix_of` parent p ->
  is_dir q n' = true /\ is_dir q n = true.
Proof.
  induction p as [|d p IH]; intros c n n' q Hw Hq; [discriminate|].
  write_file_cases p n Hw.
  - apply prefix_nil_inv in Hq. subst q. split; reflexivity.
  - rewrite parent_cons in Hq. destruct q as [|c' q]; [split; reflexivity|].
    pose proof (prefix_cons_inv_1 _ _ _ _ Hq) as ->.
    apply prefix_cons_inv_2 in Hq.
    rewrite !is_dir_cons, lookup_insert_eq, Hd. eauto.
Qed.


(** Writing succeeds when the directory exists and the path is not a
    directory. *)
Lemma write_file_ok p : forall c n,
  is_dir (parent p) n = true -> is_dir p n = false ->
  exists n', write_file p c n = Ok n'.
Proof.
  induction p as [|d p IH]; intros c n Hp Hn.
  - simpl in Hp. congruence.
  - destruct n as [f|ch]; [destruct p; discriminate Hp|].
    destruct p as [|e p].
    + simpl. rewrite is_dir_cons in Hn.
      destruct (ch !! d) as [[f|ch0]|]; [eauto|discriminate|eauto].
    + rewrite parent_cons, is_dir_cons in Hp. rewrite is_dir_cons in Hn.
      rewrite write_file_deep_eq. destruct (ch !! d) as [sub|]; [|discriminate].
      destruct (IH c sub Hp Hn) as [sub' ->]. eauto.
Qed.

Lemma not_prefix_parent p : p <> [] -> ~ p `prefix_of` parent p.
Proof.
  intros Hne Hp. apply prefix_length in Hp.
  unfold parent in Hp. destruct p as [|c p]; [congruence|].
  pose proof (app_removelast_last "" (l := c :: p) Hne) as E.
  apply (f_equal (@length _)) in E. rewrite length_app in E. simpl in *. lia.
Qed.

Lemma prefix_parent q p : q `prefix_of` parent p -> q `prefix_of` p.
Proof.
  intros Hq. destruct p as [|c p]; [exact Hq|].
  rewrite (app_removelast_last "" (l := c :: p)) by discriminate.
  apply prefix_app_r, Hq.
Qed.

End FSFacts.

(** ** Properties of the script *)

Section Properties.

Context `{lib : Library}.
Import PyStr PyStrFacts FS FSFacts.

(** Reading the SMILES text never changes the file system. *)
Lemma read_smiles_fs args stdin fs : snd (read_smiles args stdin fs) = fs.
Proof.
  unfold read_smiles. destruct (smiles_given args).
  - destruct (String.eqb _ _); reflexivity.
  - destruct (input args) as [p|]; [|reflexivity].
    unfold bind, read_text, inspect.
    destruct (stat p fs) as [[[s|b]|ch]|e]; simpl; try reflexivity.
    + destruct (splitlines s); reflexivity.
    + destruct (decode b) as [s|]; [|reflexivity].
      destruct (splitlines s); reflexivity.
Qed.

Lemma read_smiles_eta args stdin fs :
  read_smiles args stdin fs = (fst (read_smiles args stdin fs), fs).
Proof.
  rewrite <- (read_smiles_fs args stdin fs) at 3. apply surjective_pairing.
Qed.

Lemma smiles_given_false args :
  smiles_given args = false <-> smiles args = None \/ smiles args = Some "".
Proof.
  unfold smiles_given. destruct (smiles args) as [s|].
  - rewrite truthy_false. split; [intros ->; auto|intros [?|[= ->]]; congruence].
  - split; auto.
Qed.

Lemma smiles_given_true args :
  smiles_given args = true <-> exists s, smiles args = Some s /\ s <> "".
Proof.
  unfold smiles_given. destruct (smiles args) as [s|].
  - rewrite truthy_true. split; [eauto|intros (? & [= <-] & ?); assumption].
  - split; [discriminate|intros (? & ? & ?); discriminate].
Qed.

(** The file branch of [read_smiles]. *)
Lemma read_smiles_from_file args stdin fs p :
  smiles_given args = false -> input args = Some p ->
  read_smiles args stdin fs =
  match read_text p fs with
  | (Ok text, _) =>
      match splitlines text with
      | first :: _ => (Ok (strip first), fs)
      | [] => (Raise (Uncaught IndexError), fs)
      end
  | (Raise e, _) => (Raise e, fs)
  end.
Proof.
  intros Hg Hi. unfold read_smiles, bind. rewrite Hg, Hi.
  unfold read_text, inspect.
  destruct (stat p fs) as [[[s|b]|ch]|e]; simpl; try reflexivity.
  - destruct (splitlines s); reflexivity.
  - destruct (decode b) as [s|]; [|reflexivity].
    destruct (splitlines s); reflexivity.
Qed.

(** C1 (as amended). [read_smiles] returns a text exactly when the
    specification's resolution yields it: a non-empty [--smiles] other
    than the sentinel gives that text, the sentinel gives standard
    input, and without a usable [--smiles] the FIRST line of the
    [--input] file is taken, empty or not; in each case the text is
    trimmed of surrounding white space. *)
Theorem read_smiles_resolves args stdin fs r :
  read_smiles args stdin fs = (Ok r, fs)
  <-> resolves_spec args stdin fs r /\ trimmed r.
Proof.
  split.
  - intros Hr. destruct (smiles_given args) eqn:Hg.
    + destruct (proj1 (smiles_given_true args) Hg) as (s & Hs & Hne).
      unfold read_smiles in Hr. rewrite Hg, Hs in Hr. simpl in Hr.
      destruct (String.eqb_spec s "-") as [Hd|Hd];
        injection Hr as <-; (split; [|apply strip_trimmed]).
      * apply resolves_stdin. congruence.
      * apply resolves_inline; assumption.
    + pose proof (proj1 (smiles_given_false args) Hg) as Hs.
      destruct (input args) as [p|] eqn:Hi.
      * rewrite (read_smiles_from_file _ _ _ p Hg Hi) in Hr.
        destruct (read_text p fs) as [[text|e] fs1] eqn:Ht; [|discriminate].
        assert (fs1 = fs) as ->.
        { unfold read_text, inspect in Ht. congruence. }
        destruct (splitlines text) as [|first rest] eqn:Hl; [discriminate|].
        injection Hr as <-. split; [|apply strip_trimmed].
        eapply resolves_file; eassumption.
      * unfold read_smiles in Hr. rewrite Hg, Hi in Hr. discriminate.
  - intros [Hr _]. destruct Hr as [s Hs Hne Hd|Hs|p text first rest Hs Hi Ht Hl].
    + unfold read_smiles.
      rewrite (proj2 (smiles_given_true args)) by eauto.
      rewrite Hs. simpl. destruct (String.eqb_spec s "-"); [contradiction|reflexivity].
    + unfold read_smiles.
      rewrite (proj2 (smiles_given_true args)) by (eexists; split; [eassumption|discriminate]).
      rewrite Hs. reflexivity.
    + rewrite (read_smiles_from_file _ _ _ p) by (try apply smiles_given_false; assumption).
      rewrite Ht, Hl. reflexivity.
Qed.

(** *** Running [main] *)

Lemma main_run args stdin fs :
  main args stdin fs =
  match fst (read_smiles args stdin fs) with
  | Raise e => (Raise e, fs)
  | Ok s =>
      match MolFromSmiles s with
      | None => (Raise (SystemExit (invalid_smiles_message s)), fs)
      | Some m => save_drawing (Compute2DCoords m) (output args) (size args) fs
      end
  end.
Proof.
  unfold main, bind. rewrite read_smiles_eta. simpl.
  destruct (fst (read_smiles args stdin fs)) as [s|e]; [|reflexivity].
  unfold build_molecule. destruct (MolFromSmiles s); reflexivity.
Qed.

(** File operations raise Python exceptions, never [SystemExit]. *)
Lemma stat_uncaught p : forall n msg, stat p n <> Raise (SystemExit msg).
Proof.
  induction p as [|c p IH]; intros [f|ch] msg; simpl; try discriminate.
  destruct (ch !! c); [apply IH|discriminate].
Qed.

Lemma mkdir_parents_uncaught p : forall n msg,
  mkdir_parents p n <> Raise (SystemExit msg).
Proof.
  induction p as [|c p IH]; intros [f|ch] msg; simpl; try discriminate.
  destruct (mkdir_parents p _) as [sub|e] eqn:E; [discriminate|].
  intros [= ->]. exact (IH _ _ E).
Qed.

Lemma write_file_uncaught p : forall c n msg,
  write_file p c n <> Raise (SystemExit msg).
Proof.
  induction p as [|d p IH]; intros c [f|ch] msg; try discriminate.
  - destruct p; discriminate.
  - destruct p as [|e p].
    + simpl. destruct (ch !! d) as [[?|?]|]; discriminate.
    + rewrite write_file_deep_eq. destruct (ch !! d) as [sub|]; [|discriminate].
      destruct (write_file (e :: p) c sub) as [sub'|err] eqn:E; [discriminate|].
      intros [= ->]. exact (IH _ _ _ E).
Qed.

Lemma update_uncaught f fs msg :
  (forall n, f n <> Raise (SystemExit msg)) ->
  fst (update f fs) <> Raise (SystemExit msg).
Proof.
  intros Hf. unfold update. specialize (Hf fs).
  destruct (f fs) as [n'|e]; simpl; [discriminate|congruence].
Qed.

Lemma read_text_uncaught p fs msg :
  fst (read_text p fs) <> Raise (SystemExit msg).
Proof.
  unfold read_text, inspect. simpl.
  pose proof (stat_uncaught p fs msg) as Hs.
  destruct (stat p fs) as [[[s|b]|ch]|e]; try discriminate; [|congruence].
  destruct (decode b); discriminate.
Qed.

(** The two steps of [save_drawing]. *)
Lemma save_drawing_mkdir_raises molecule out sz fs e :
  mkdir_parents (parent out) fs = Raise e ->
  save_drawing molecule out sz fs = (Raise e, fs).
Proof.
  intros Hm. unfold save_drawing, bind, mkdir, update. rewrite Hm. reflexivity.
Qed.

Lemma save_drawing_after_mkdir molecule out sz fs fs1 :
  mkdir_parents (parent out) fs = Ok fs1 ->
  save_drawing molecule out sz fs
  = if String.eqb (lower (suffix out)) ".svg"
    then match MolDraw2DSVG (fst sz) (snd sz) molecule with
         | Some text => write_text out text fs1
         | None => (Raise (Uncaught DrawingError), fs1)
         end
    else image_save (MolToImage molecule sz) out fs1.
Proof.
  intros Hm. unfold save_drawing, bind, mkdir, update, drawing_text. rewrite Hm.
  destruct (String.eqb _ _); [|reflexivity].
  destruct (MolDraw2DSVG _ _ _); reflexivity.
Qed.

Lemma image_save_uncaught image p fs msg :
  fst (image_save image p fs) <> Raise (SystemExit msg).
Proof.
  unfold image_save. destruct (encode image p) as [[b|partial]|].
  - apply update_uncaught. intros n. apply write_file_uncaught.
  - pose proof (write_file_uncaught p (Binary partial) fs msg) as Hw.
    destruct (write_file p (Binary partial) fs); simpl; [discriminate|congruence].
  - discriminate.
Qed.

Lemma save_drawing_uncaught molecule out sz fs msg :
  fst (save_drawing molecule out sz fs) <> Raise (SystemExit msg).
Proof.
  destruct (mkdir_parents (parent out) fs) as [fs1|e] eqn:Hm.
  - rewrite (save_drawing_after_mkdir _ _ _ _ _ Hm).
    destruct (String.eqb _ _); [|apply image_save_uncaught].
    destruct (MolDraw2DSVG _ _ _); [|discriminate].
    apply update_uncaught. intros n. apply write_file_uncaught.
  - rewrite (save_drawing_mkdir_raises _ _ _ _ _ Hm). simpl. intros [= ->].
    exact (mkdir_parents_uncaught _ _ _ Hm).
Qed.

(** C2. When the text that [read_smiles] resolved is one the parser
    rejects, the run stops with [SystemExit]: the exit status is not
    zero, the message on standard error contains the offending text, and
    the file system is exactly as it was (no file, no directory
    created). *)
Theorem invalid_smiles_exits args stdin fs s :
  fst (read_smiles args stdin fs) = Ok s ->
  MolFromSmiles s = None ->
  let run := main args stdin fs in
  fst run = Raise (SystemExit (invalid_smiles_message s))
  /\ exit_status (fst run) <> 0%Z
  /\ stderr_of (fst run) = Message (invalid_smiles_message s)
  /\ contains (invalid_smiles_message s) s
  /\ snd run = fs.
Proof.
  intros Hr Hp run. subst run. rewrite main_run, Hr, Hp. simpl.
  repeat split; [discriminate|apply contains_suffix].
Qed.

(** C3. With no usable [--smiles] (absent or empty) and no [--input],
    the run stops with [SystemExit] and the message asking for a source:
    the exit status is not zero and the file system is untouched. *)
Theorem no_source_exits args stdin fs :
  smiles args = None \/ smiles args = Some "" ->
  input args = None ->
  let run := main args stdin fs in
  fst run = Raise (SystemExit no_source_message)
  /\ exit_status (fst run) <> 0%Z
  /\ stderr_of (fst run) = Message no_source_message
  /\ snd run = fs.
Proof.
  intros Hs Hi run. subst run. apply smiles_given_false in Hs.
  rewrite main_run. unfold read_smiles. rewrite Hs, Hi. simpl.
  repeat split. discriminate.
Qed.

(** C6. The sentinel with a text on standard input runs exactly as the
    inline argument does whenever the two texts agree after trimming
    (the inline argument being a usable one: not empty and not the
    sentinel itself); so "CCO" followed by a newline on standard input
    runs as [--smiles CCO]. *)
Theorem stdin_sentinel_same_as_inline args s text stdin fs :
  s <> "" -> s <> "-" -> strip text = strip s ->
  read_smiles (with_smiles (Some "-") args) text fs
  = read_smiles (with_smiles (Some s) args) stdin fs
  /\ main (with_smiles (Some "-") args) text fs
     = main (with_smiles (Some s) args) stdin fs.
Proof.
  intros Hne Hd Heq.
  assert (Hr : read_smiles (with_smiles (Some "-") args) text fs
               = read_smiles (with_smiles (Some s) args) stdin fs).
  { unfold read_smiles, smiles_given. simpl.
    rewrite (proj2 (truthy_true s) Hne).
    destruct (String.eqb_spec s "-"); [contradiction|].
    unfold ret. rewrite Heq. reflexivity. }
  split; [exact Hr|]. rewrite !main_run, Hr. reflexivity.
Qed.

(** How [main] stops early.  The exit status is 1.  [SystemExit] is
    raised in two places only: no source given, or a text the parser
    rejects; in both the message goes to standard error and the file
    system is exactly as it was.  Anything else is an exception of a
    file operation or of a library, which the script does not catch. *)
Lemma main_early_stop args stdin fs e :
  fst (main args stdin fs) = Raise e ->
  exit_status (fst (main args stdin fs)) = 1%Z
  /\ match e with
     | SystemExit msg =>
         (msg = no_source_message /\ smiles_given args = false
          /\ input args = None
          \/ exists s, fst (read_smiles args stdin fs) = Ok s
                       /\ MolFromSmiles s = None
                       /\ msg = invalid_smiles_message s)
         /\ stderr_of (fst (main args stdin fs)) = Message msg
         /\ snd (main args stdin fs) = fs
     | Uncaught x => stderr_of (fst (main args stdin fs)) = Traceback x
     end.
Proof.
  intros He. rewrite He. split; [reflexivity|].
  destruct e as [msg|x]; [|reflexivity].
  rewrite main_run in He |- *.
  destruct (fst (read_smiles args stdin fs)) as [s|e0] eqn:Hr.
  - destruct (MolFromSmiles s) as [m|] eqn:Hp.
    + destruct (save_drawing_uncaught _ _ _ _ _ He).
    + simpl in *. injection He as <-. repeat split. right. eauto.
  - simpl in *. injection He as ->. repeat split. left.
    unfold read_smiles in Hr. destruct (smiles_given args).
    + destruct (String.eqb _ _); discriminate.
    + destruct (input args) as [p|]; [|injection Hr as <-; auto].
      exfalso. unfold bind in Hr.
      pose proof (read_text_uncaught p fs msg) as Ht.
      destruct (read_text p fs) as [[text|e1] fs1]; simpl in *.
      * destruct (splitlines text); discriminate.
      * congruence.
Qed.

(** C7 (as amended). A run of the script that ends with a status
    other than zero ends in one of four ways.  [argparse] rejects the
    command line: usage message on standard error, status 2.  The
    script itself stops the run, in two ways only and both by
    [SystemExit]: no source given, or a text the parser rejects; the
    message goes to standard error and the status is 1.  Or an
    exception of a file operation or of a library, which the script
    does not catch, ends the run with a traceback and status 1.  In the
    first three the file system is exactly as it was. *)
Theorem early_stop_kinds argv stdin fs status err fs' :
  script argv stdin fs = (status, err, fs') ->
  status <> 0%Z ->
  (exists message,
     parse_args argv = UsageError message
     /\ status = 2%Z /\ err = Message message /\ fs' = fs)
  \/ exists args,
       parse_args argv = Parsed args /\ status = 1%Z
       /\ (err = Message no_source_message
           /\ smiles_given args = false /\ input args = None /\ fs' = fs
           \/ (exists s,
                 err = Message (invalid_smiles_message s)
                 /\ fst (read_smiles args stdin fs) = Ok s
                 /\ MolFromSmiles s = None /\ fs' = fs)
           \/ exists x,
                err = Traceback x
                /\ main args stdin fs = (Raise (Uncaught x), fs')).
Proof.
  unfold script. destruct (parse_args argv) as [args|message|].
  - intros [= <- <- <-] Hs. right. exists args. split; [reflexivity|].
    destruct (fst (main args stdin fs)) as [[]|e] eqn:He; [destruct Hs; reflexivity|].
    split; [reflexivity|].
    destruct (main_early_stop args stdin fs e He) as [_ Hk].
    destruct e as [msg|x].
    + destruct Hk as ([(-> & Hg & Hi)|(s & Hr & Hp & ->)] & _ & Hfs).
      * left. rewrite Hfs. auto.
      * right. left. exists s. rewrite Hfs. auto.
    + right. right. exists x. split; [reflexivity|].
      rewrite <- He. apply surjective_pairing.
  - intros [= <- <- <-] _. left. exists message. auto.
  - intros [= <- <- <-] Hs. destruct Hs. reflexivity.
Qed.

(** C8 (as amended). When there is no usable [--smiles] and the first
    line of the [--input] file is empty or blank, the script hands the
    empty text to the parser.  The run then stops with the
    invalid-SMILES message exactly when the parser returns no molecule
    for the empty text; when it returns one, the script goes on to draw
    it (the script has no check of its own for an empty text). *)
Theorem blank_first_line args stdin fs p text first rest :
  smiles_given args = false -> input args = Some p ->
  read_text p fs = (Ok text, fs) ->
  splitlines text = first :: rest -> strip first = "" ->
  read_smiles args stdin fs = (Ok "", fs)
  /\ (MolFromSmiles "" = None <->
      fst (main args stdin fs) = Raise (SystemExit (invalid_smiles_message "")))
  /\ (MolFromSmiles "" = None -> snd (main args stdin fs) = fs)
  /\ (forall m, MolFromSmiles "" = Some m ->
        main args stdin fs
        = save_drawing (Compute2DCoords m) (output args) (size args) fs).
Proof.
  intros Hg Hi Ht Hl Hb.
  assert (Hr : read_smiles args stdin fs = (Ok "", fs)).
  { rewrite (read_smiles_from_file _ _ _ p Hg Hi), Ht, Hl, Hb. reflexivity. }
  rewrite main_run, Hr. simpl. repeat split.
  - intros ->. reflexivity.
  - destruct (MolFromSmiles "") as [m|]; [|reflexivity].
    intros He. destruct (save_drawing_uncaught _ _ _ _ _ He).
  - intros ->. reflexivity.
  - intros m ->. reflexivity.
Qed.

(** C9. An empty [--smiles] counts as no [--smiles] at all: the script
    runs as it does without the argument, so it reads the [--input] file
    when there is one and otherwise stops with the no-source message;
    the empty text itself is never taken as the SMILES. *)
Theorem empty_smiles_is_absent args stdin fs :
  read_smiles (with_smiles (Some "") args) stdin fs
  = read_smiles (with_smiles None args) stdin fs
  /\ main (with_smiles (Some "") args) stdin fs
     = main (with_smiles None args) stdin fs
  /\ read_smiles (with_smiles (Some "") args) stdin fs
     = match input args with
       | Some p =>
           match read_text p fs with
           | (Ok text, _) =>
               match splitlines text with
               | first :: _ => (Ok (strip first), fs)
               | [] => (Raise (Uncaught IndexError), fs)
               end
           | (Raise e, _) => (Raise e, fs)
           end
       | None => (Raise (SystemExit no_source_message), fs)
       end.
Proof.
  repeat split.
  destruct (input args) as [p|] eqn:Hi.
  - apply read_smiles_from_file; [reflexivity|exact Hi].
  - unfold read_smiles. simpl. rewrite Hi. reflexivity.
Qed.

(** *** Saving the drawing *)

Lemma update_ok f fs fs' :
  update f fs = (Ok tt, fs') <-> f fs = Ok fs'.
Proof.
  unfold update. destruct (f fs) as [n|e]; split; intros E;
    try discriminate; congruence.
Qed.

(** When [image.save] returns. *)
Lemma image_save_ok image p fs fs' :
  image_save image p fs = (Ok tt, fs')
  <-> exists b, encode image p = Some (Complete b)
                /\ write_file p (Binary b) fs = Ok fs'.
Proof.
  unfold image_save. destruct (encode image p) as [[b|partial]|].
  - rewrite update_ok. split; [eauto|]. intros (b' & [= <-] & Hw). exact Hw.
  - split; [|intros (b & [=] & _)].
    destruct (write_file p (Binary partial) fs); discriminate.
  - split; [discriminate|intros (b & [=] & _)].
Qed.

(** What a successful [save_drawing] did: the directories, then one
    file whose content the suffix decides. *)
Lemma save_drawing_inv molecule out sz fs fs' :
  save_drawing molecule out sz fs = (Ok tt, fs') ->
  exists fs1 c,
    mkdir_parents (parent out) fs = Ok fs1
    /\ write_file out c fs1 = Ok fs'
    /\ if String.eqb (lower (suffix out)) ".svg"
       then exists text, MolDraw2DSVG (fst sz) (snd sz) molecule = Some text
                         /\ c = Text text
       else exists b, encode (MolToImage molecule sz) out = Some (Complete b)
                      /\ c = Binary b.
Proof.
  destruct (mkdir_parents (parent out) fs) as [fs1|e] eqn:Hm.
  - rewrite (save_drawing_after_mkdir _ _ _ _ _ Hm).
    destruct (String.eqb _ _).
    + destruct (MolDraw2DSVG _ _ _) as [text|]; [|discriminate].
      intros Hw. apply update_ok in Hw.
      exists fs1, (Text text). repeat split; [assumption|]. exists text. auto.
    + intros Hs. apply image_save_ok in Hs as (b & He & Hw).
      exists fs1, (Binary b). repeat split; [assumption|]. exists b. auto.
  - rewrite (save_drawing_mkdir_raises _ _ _ _ _ Hm). discriminate.
Qed.

(** The output path keeps what it held while the directories are made. *)
Lemma mkdir_parent_keeps_output out fs fs1 :
  mkdir_parents (parent out) fs = Ok fs1 -> is_dir out fs = false ->
  lookup_path out fs1 = lookup_path out fs.
Proof.
  intros Hm Hd. eapply mkdir_parents_frame; [exact Hm|].
  apply not_prefix_parent. intros ->.
  destruct fs; [discriminate Hm|discriminate Hd].
Qed.

(** The file system lets [save_drawing] through exactly when no file
    lies on the way to the output directory and the output path is not
    a directory. *)
Lemma output_writable out c fs :
  blocked (parent out) fs = false -> is_dir out fs = false ->
  exists fs1 fs', mkdir_parents (parent out) fs = Ok fs1
                  /\ write_file out c fs1 = Ok fs'.
Proof.
  intros Hb Hd. apply mkdir_parents_blocked in Hb as [fs1 Hm].
  destruct (write_file_ok out c fs1) as [fs' Hw].
  - eapply mkdir_parents_is_dir; [exact Hm|reflexivity].
  - unfold is_dir in *. rewrite (mkdir_parent_keeps_output _ _ _ Hm Hd). exact Hd.
  - eauto.
Qed.

Lemma save_drawing_svg molecule out sz fs fs1 fs' text :
  lower (suffix out) = ".svg" ->
  mkdir_parents (parent out) fs = Ok fs1 ->
  MolDraw2DSVG (fst sz) (snd sz) molecule = Some text ->
  write_file out (Text text) fs1 = Ok fs' ->
  save_drawing molecule out sz fs = (Ok tt, fs').
Proof.
  intros Hs Hm Hd Hw. rewrite (save_drawing_after_mkdir _ _ _ _ _ Hm), Hs, Hd.
  simpl. apply update_ok, Hw.
Qed.

Lemma save_drawing_raster molecule out sz fs fs1 :
  String.eqb (lower (suffix out)) ".svg" = false ->
  mkdir_parents (parent out) fs = Ok fs1 ->
  save_drawing molecule out sz fs = image_save (MolToImage molecule sz) out fs1.
Proof.
  intros Hs Hm. rewrite (save_drawing_after_mkdir _ _ _ _ _ Hm), Hs. reflexivity.
Qed.


(** C4 (as amended). The suffix of the output path alone selects the
    branch.  On a file system that lets the output be written, a
    suffix that is [.svg] (compared after lowercasing) makes the file
    hold the SVG text of the drawing, unless the drawer raises.  Any
    other suffix sends the molecule to the raster path of the library,
    and what is saved depends on the library: when it has a format for
    the path and its encoder returns, the file holds the encoded image;
    when it has no format for the path it raises and the output path
    is left as it was; when its encoder raises after the file was
    opened, no new file stays and a file that was there is left
    truncated to what the encoder wrote. *)
Theorem format_selected_by_suffix molecule out sz fs :
  blocked (parent out) fs = false -> is_dir out fs = false ->
  if String.eqb (lower (suffix out)) ".svg" then
    match MolDraw2DSVG (fst sz) (snd sz) molecule with
    | Some text =>
        exists fs', save_drawing molecule out sz fs = (Ok tt, fs')
          /\ lookup_path out fs' = Some (File (Text text))
    | None =>
        fst (save_drawing molecule out sz fs) = Raise (Uncaught DrawingError)
        /\ lookup_path out (snd (save_drawing molecule out sz fs))
           = lookup_path out fs
    end
  else
    match encode (MolToImage molecule sz) out with
    | Some (Complete b) =>
        exists fs', save_drawing molecule out sz fs = (Ok tt, fs')
          /\ lookup_path out fs' = Some (File (Binary b))
    | Some (Broken partial) =>
        fst (save_drawing molecule out sz fs) = Raise (Uncaught ImageSaveError)
        /\ lookup_path out (snd (save_drawing molecule out sz fs))
           = match lookup_path out fs with
             | Some _ => Some (File (Binary partial))
             | None => None
             end
    | None =>
        fst (save_drawing molecule out sz fs) = Raise (Uncaught ImageSaveError)
        /\ lookup_path out (snd (save_drawing molecule out sz fs))
           = lookup_path out fs
    end.
Proof.
  intros Hb Hd.
  destruct (proj1 (mkdir_parents_blocked _ _) Hb) as [fs1 Hm].
  pose proof (mkdir_parent_keeps_output _ _ _ Hm Hd) as Hk.
  assert (Hw : forall c, exists fs', write_file out c fs1 = Ok fs').
  { intros c. apply write_file_ok.
    - eapply mkdir_parents_is_dir; [exact Hm|reflexivity].
    - unfold is_dir in *. rewrite Hk. exact Hd. }
  rewrite (save_drawing_after_mkdir _ _ _ _ _ Hm).
  destruct (String.eqb (lower (suffix out)) ".svg").
  - destruct (MolDraw2DSVG (fst sz) (snd sz) molecule) as [text|].
    + destruct (Hw (Text text)) as [fs' Hw']. exists fs'.
      split; [apply update_ok, Hw'|eapply write_file_lookup, Hw'].
    + split; [reflexivity|exact Hk].
  - unfold image_save.
    destruct (encode (MolToImage molecule sz) out) as [[b|partial]|].
    + destruct (Hw (Binary b)) as [fs' Hw']. exists fs'.
      split; [apply update_ok, Hw'|eapply write_file_lookup, Hw'].
    + destruct (Hw (Binary partial)) as [fs' Hw']. rewrite Hw'. simpl.
      split; [reflexivity|]. rewrite Hk.
      destruct (lookup_path out fs) eqn:E; [|congruence].
      eapply write_file_lookup, Hw'.
    + split; [reflexivity|exact Hk].
Qed.


(** Making the directories does not touch the output path itself. *)
Lemma mkdir_parent_lookup_output out fs fs1 :
  mkdir_parents (parent out) fs = Ok fs1 ->
  lookup_path out fs1 = lookup_path out fs.
Proof.
  intros Hm. destruct out as [|c out].
  - simpl in Hm. destruct fs; [discriminate|]. congruence.
  - eapply mkdir_parents_frame; [exact Hm|].
    apply not_prefix_parent. discriminate.
Qed.

(** C10. The suffix is compared after lowercasing: whenever the
    lowered suffix of the output path is [.svg] (so for [.SVG] and
    [.Svg] too), the drawing is written as SVG text, not as a raster
    image.  On a file system that lets the output be written and for a
    size the drawer accepts, the file holds the text of the drawer; and
    in every case, whatever the raster encoder would do, the output
    path afterwards holds that text or what it held before. *)
Theorem svg_suffix_ignores_case molecule out sz fs :
  lower (suffix out) = ".svg" ->
  (forall text,
     blocked (parent out) fs = false -> is_dir out fs = false ->
     MolDraw2DSVG (fst sz) (snd sz) molecule = Some text ->
     exists fs', save_drawing molecule out sz fs = (Ok tt, fs')
       /\ lookup_path out fs' = Some (File (Text text))
       /\ forall b, lookup_path out fs' <> Some (File (Binary b)))
  /\ (lookup_path out (snd (save_drawing molecule out sz fs)) = lookup_path out fs
      \/ exists text,
           MolDraw2DSVG (fst sz) (snd sz) molecule = Some text
           /\ lookup_path out (snd (save_drawing molecule out sz fs))
              = Some (File (Text text))).
Proof.
  intros Hs. split.
  - intros text Hb Hd Ht.
    destruct (output_writable out (Text text) fs Hb Hd) as (fs1 & fs' & Hm & Hw).
    exists fs'. rewrite (write_file_lookup _ _ _ _ Hw).
    repeat split; [eapply save_drawing_svg; eassumption|discriminate].
  - destruct (mkdir_parents (parent out) fs) as [fs1|e] eqn:Hm;
      [|rewrite (save_drawing_mkdir_raises _ _ _ _ _ Hm); left; reflexivity].
    rewrite (save_drawing_after_mkdir _ _ _ _ _ Hm), Hs. simpl.
    pose proof (mkdir_parent_lookup_output _ _ _ Hm) as Hk.
    destruct (MolDraw2DSVG (fst sz) (snd sz) molecule) as [text|]; [|left; exact Hk].
    unfold write_text, update.
    destruct (write_file out (Text text) fs1) as [fs'|e] eqn:Hw; [|left; exact Hk].
    right. exists text. split; [reflexivity|]. eapply write_file_lookup, Hw.
Qed.

End Properties.

(** ** Sample runs *)

Module Runs.
Import PyStr PyStrFacts FS Examples.

(** An input file whose first line is empty and whose second line is
    ethanol: the script takes the first line, although the first
    non-empty line is "CCO". *)
Lemma first_nonempty_line_counterexample :
  let text := nl +:+ "CCO" +:+ nl in
  let fs := fs_with "in.smi" text in
  let args := from_file ["in.smi"] ["out.png"] in
  fst (read_text (lib := lenient) ["in.smi"] fs) = Ok text
  /\ first_nonempty_line_spec text = Some "CCO"
  /\ fst (read_smiles (lib := lenient) args "" fs) = Ok ""
  /\ fst (read_smiles (lib := lenient) args "" fs) <> Ok (strip "CCO").
Proof. vm_compute. repeat split. discriminate. Qed.

Lemma read_smiles_resolves_witness :
  let fs := fs_with "in.smi" (" CCO " +:+ nl +:+ "C") in
  let args := from_file ["in.smi"] ["out.png"] in
  read_smiles (lib := lenient) args "" fs = (Ok "CCO", fs).
Proof.
  intros fs args.
  apply (proj2 (read_smiles_resolves (lib := lenient) args "" fs "CCO")).
  split; [|split; reflexivity].
  exact (resolves_file (lib := lenient) args "" fs ["in.smi"]
           (" CCO " +:+ nl +:+ "C") " CCO " ["C"]
           (or_introl eq_refl) eq_refl eq_refl eq_refl).
Defined.

Lemma invalid_smiles_exits_witness :
  let run := main (lib := lenient) (inline "not_a_molecule" ["a"; "out.png"])
               "" empty_fs in
  fst run = Raise (SystemExit "Invalid SMILES string: not_a_molecule")
  /\ exit_status (fst run) <> 0%Z
  /\ stderr_of (fst run) = Message "Invalid SMILES string: not_a_molecule"
  /\ contains "Invalid SMILES string: not_a_molecule" "not_a_molecule"
  /\ snd run = empty_fs.
Proof.
  apply (invalid_smiles_exits (lib := lenient)
           (inline "not_a_molecule" ["a"; "out.png"]) "" empty_fs
           "not_a_molecule"); reflexivity.
Defined.

Lemma no_source_exits_witness :
  let run := main (lib := lenient) (no_source ["out.png"]) "" empty_fs in
  fst run = Raise (SystemExit no_source_message)
  /\ exit_status (fst run) <> 0%Z
  /\ stderr_of (fst run) = Message no_source_message
  /\ snd run = empty_fs.
Proof.
  apply (no_source_exits (lib := lenient) (no_source ["out.png"]) "" empty_fs);
    [left|]; reflexivity.
Defined.

(** An output path with an extension for which the imaging library
    has no format: the run goes to the raster path, the library raises,
    and no image is saved. *)
Lemma raster_format_counterexample :
  let run := save_drawing (lib := lenient) "CCO" ["out.xyz"] default_size empty_fs in
  lower (suffix ["out.xyz"]) = ".xyz"
  /\ fst run = Raise (Uncaught ImageSaveError)
  /\ lookup_path ["out.xyz"] (snd run) = None
  /\ forall b, lookup_path ["out.xyz"] (snd run) <> Some (File (Binary b)).
Proof. vm_compute. repeat split. discriminate. Qed.

Lemma format_selected_by_suffix_witness :
  (exists fs', save_drawing (lib := lenient) "CCO" ["out.png"] default_size empty_fs
               = (Ok tt, fs')
     /\ lookup_path ["out.png"] fs'
        = Some (File (Binary (list_byte_of_string "PNG CCO"))))
  /\ (exists fs', save_drawing (lib := lenient) "CCO" ["out.svg"] default_size empty_fs
               = (Ok tt, fs')
     /\ lookup_path ["out.svg"] fs' = Some (File (Text "<svg>CCO</svg>")))
  /\ (fst (save_drawing (lib := lenient) "CCO" ["out.xyz"] default_size empty_fs)
      = Raise (Uncaught ImageSaveError)
      /\ lookup_path ["out.xyz"]
           (snd (save_drawing (lib := lenient) "CCO" ["out.xyz"] default_size empty_fs))
         = lookup_path ["out.xyz"] empty_fs)
  /\ (fst (save_drawing (lib := lenient) "CCO" ["out.jpg"] default_size
             (fs_with "out.jpg" "an older file"))
      = Raise (Uncaught ImageSaveError)
      /\ lookup_path ["out.jpg"]
           (snd (save_drawing (lib := lenient) "CCO" ["out.jpg"] default_size
                   (fs_with "out.jpg" "an older file")))
         = Some (File (Binary []))).
Proof.
  split; [|split; [|split]].
  - exact (format_selected_by_suffix (lib := lenient) "CCO" ["out.png"]
             default_size empty_fs eq_refl eq_refl).
  - exact (format_selected_by_suffix (lib := lenient) "CCO" ["out.svg"]
             default_size empty_fs eq_refl eq_refl).
  - exact (format_selected_by_suffix (lib := lenient) "CCO" ["out.xyz"]
             default_size empty_fs eq_refl eq_refl).
  - exact (format_selected_by_suffix (lib := lenient) "CCO" ["out.jpg"]
             default_size (fs_with "out.jpg" "an older file") eq_refl eq_refl).
Defined.


Lemma stdin_sentinel_same_as_inline_witness :
  let args := no_source ["out.png"] in
  main (lib := lenient) (with_smiles (Some "-") args) ("CCO" +:+ nl) empty_fs
  = main (lib := lenient) (with_smiles (Some "CCO") args) "" empty_fs.
Proof.
  intros args.
  apply (stdin_sentinel_same_as_inline (lib := lenient) args "CCO" ("CCO" +:+ nl)
           "" empty_fs); [discriminate|discriminate|reflexivity].
Defined.

(** An [--input] path that does not exist: the run stops on an
    exception of [read_text], which is neither of the two messages. *)
Lemma early_stop_counterexample :
  let r := fst (main (lib := lenient) (from_file ["missing.smi"] ["out.png"])
                  "" empty_fs) in
  r = Raise (Uncaught FileNotFoundError)
  /\ exit_status r <> 0%Z
  /\ forall msg, r <> Raise (SystemExit msg).
Proof. vm_compute. repeat split; discriminate. Qed.

Lemma early_stop_kinds_witness :
  let kinds argv status err fs' :=
    (exists message,
       parse_args (Library := lenient) argv = UsageError message
       /\ status = 2%Z /\ err = Message message /\ fs' = empty_fs)
    \/ exists args,
         parse_args (Library := lenient) argv = Parsed args /\ status = 1%Z
         /\ (err = Message no_source_message
             /\ smiles_given args = false /\ input args = None /\ fs' = empty_fs
             \/ (exists s,
                   err = Message (invalid_smiles_message s)
                   /\ fst (read_smiles (lib := lenient) args "" empty_fs) = Ok s
                   /\ MolFromSmiles (Library := lenient) s = None
                   /\ fs' = empty_fs)
             \/ exists x,
                  err = Traceback x
                  /\ main (lib := lenient) args "" empty_fs
                     = (Raise (Uncaught x), fs')) in
  kinds ["--output"; "out.png"] 1%Z (Message no_source_message) empty_fs
  /\ kinds ["--smiles"; "CCO"] 2%Z
       (Message "the following arguments are required: --output") empty_fs
  /\ kinds ["--input"; "missing.smi"; "--output"; "out.png"] 1%Z
       (Traceback FileNotFoundError) empty_fs.
Proof.
  intros kinds. split; [|split].
  - exact (early_stop_kinds (lib := lenient) ["--output"; "out.png"] "" empty_fs
             1%Z (Message no_source_message) empty_fs eq_refl ltac:(discriminate)).
  - exact (early_stop_kinds (lib := lenient) ["--smiles"; "CCO"] "" empty_fs
             2%Z (Message "the following arguments are required: --output")
             empty_fs eq_refl ltac:(discriminate)).
  - exact (early_stop_kinds (lib := lenient)
             ["--input"; "missing.smi"; "--output"; "out.png"] "" empty_fs
             1%Z (Traceback FileNotFoundError) empty_fs eq_refl ltac:(discriminate)).
Defined.

(** An input file whose first line is empty, with a parser that takes
    the empty text for a molecule: the run ends normally and the
    drawing is written. *)
Lemma blank_first_line_counterexample :
  let fs := fs_with "in.smi" (nl +:+ "CCO") in
  let run := main (lib := lenient) (from_file ["in.smi"] ["out.png"]) "" fs in
  PyStr.splitlines (nl +:+ "CCO") = [""; "CCO"]
  /\ MolFromSmiles (Library := lenient) "" = Some ""
  /\ fst run = Ok tt
  /\ exit_status (fst run) = 0%Z
  /\ fst run <> Raise (SystemExit (invalid_smiles_message ""))
  /\ lookup_path ["out.png"] (snd run)
     = Some (File (Binary (list_byte_of_string "PNG "))).
Proof. vm_compute. repeat split. discriminate. Qed.

Lemma blank_first_line_witness :
  let fs := fs_with "in.smi" ("  " +:+ nl +:+ "CCO") in
  let run := main (lib := strict) (from_file ["in.smi"] ["out.png"]) "" fs in
  fst run = Raise (SystemExit "Invalid SMILES string: ") /\ snd run = fs.
Proof.
  intros fs run.
  destruct (blank_first_line (lib := strict) (from_file ["in.smi"] ["out.png"])
              "" fs ["in.smi"] ("  " +:+ nl +:+ "CCO") "  " ["CCO"]
              eq_refl eq_refl eq_refl eq_refl eq_refl) as (_ & Hexit & Hfs & _).
  split; [exact (proj1 Hexit eq_refl)|exact (Hfs eq_refl)].
Defined.

Lemma svg_suffix_ignores_case_witness :
  (exists fs', save_drawing (lib := lenient) "CCO" ["mol.SVG"] default_size empty_fs
               = (Ok tt, fs')
     /\ lookup_path ["mol.SVG"] fs' = Some (File (Text "<svg>CCO</svg>"))
     /\ forall b, lookup_path ["mol.SVG"] fs' <> Some (File (Binary b)))
  /\ (exists fs', save_drawing (lib := lenient) "CCO" ["pics"; "mol.Svg"]
                    default_size empty_fs = (Ok tt, fs')
     /\ lookup_path ["pics"; "mol.Svg"] fs' = Some (File (Text "<svg>CCO</svg>"))
     /\ forall b, lookup_path ["pics"; "mol.Svg"] fs' <> Some (File (Binary b))).
Proof.
  split.
  - exact (proj1 (svg_suffix_ignores_case (lib := lenient) "CCO" ["mol.SVG"]
                    default_size empty_fs eq_refl)
             "<svg>CCO</svg>" eq_refl eq_refl eq_refl).
  - exact (proj1 (svg_suffix_ignores_case (lib := lenient) "CCO" ["pics"; "mol.Svg"]
                    default_size empty_fs eq_refl)
             "<svg>CCO</svg>" eq_refl eq_refl eq_refl).
Defined.

(** Further runs. *)
Example strip_examples :
  strip ("CCO" +:+ nl) = "CCO" /\ strip "  C C  " = "C C" /\ strip "   " = "".
Proof. repeat split. Qed.

Example splitlines_examples :
  splitlines ("a" +:+ String CR nl +:+ nl +:+ "bc") = ["a"; ""; "bc"]
  /\ splitlines ("CCO" +:+ nl) = ["CCO"]
  /\ splitlines nl = [""]
  /\ splitlines "" = [].
Proof. repeat split. Qed.

Example suffix_examples :
  suffix ["pics"; "mol.tar.SVG"] = ".SVG" /\ suffix [".svg"] = ""
  /\ suffix ["mol."] = "" /\ suffix ["mol"] = "" /\ suffix [] = "".
Proof. repeat split. Qed.

Example empty_input_file_raises :
  main (lib := lenient) (from_file ["in.smi"] ["out.png"]) ""
    (fs_with "in.smi" "")
  = (Raise (Uncaught IndexError), fs_with "in.smi" "").
Proof. reflexivity. Qed.

Example unknown_extension_keeps_directories :
  let run := main (lib := lenient) (inline "CCO" ["pics"; "out.xyz"]) "" empty_fs in
  fst run = Raise (Uncaught ImageSaveError) /\ is_dir ["pics"] (snd run) = true.
Proof. vm_compute. split; reflexivity. Qed.

Example empty_smiles_reads_input :
  fst (read_smiles (lib := lenient)
         (with_smiles (Some "") (from_file ["in.smi"] ["out.png"])) "ignored"
         (fs_with "in.smi" "CCO"))
  = Ok "CCO".
Proof. reflexivity. Qed.

End Runs.

(** ** More about the string methods *)

Module TextFacts.
Import PyStr PyStrFacts Text.

Lemma append_nil_r s : s +:+ "" = s.
Proof.
  induction s as [|c r IH]; [reflexivity|].
  change (String c (r +:+ "") = String c r). f_equal. exact IH.
Qed.

Lemma append_cons c r s : String c r +:+ s = String c (r +:+ s).
Proof. reflexivity. Qed.

Lemma append_assoc a b c : (a +:+ b) +:+ c = a +:+ b +:+ c.
Proof.
  induction a as [|x a IH]; [reflexivity|].
  rewrite !append_cons. f_equal. exact IH.
Qed.

Lemma length_append a b :
  String.length (a +:+ b) = (String.length a + String.length b)%nat.
Proof.
  induction a as [|x a IH]; [reflexivity|].
  rewrite append_cons. simpl. f_equal. exact IH.
Qed.

Lemma all_space_append a b :
  all_space (a +:+ b) = all_space a && all_space b.
Proof.
  induction a as [|x a IH]; [reflexivity|].
  rewrite append_cons. simpl. rewrite IH. apply andb_assoc.
Qed.

Lemma has_linebreak_append a b :
  has_linebreak (a +:+ b) = has_linebreak a || has_linebreak b.
Proof.
  induction a as [|x a IH]; [reflexivity|].
  rewrite append_cons. simpl. rewrite IH. apply orb_assoc.
Qed.

(** A line boundary is white space. *)
Lemma islinebreak_isspace c : islinebreak c = true -> isspace c = true.
Proof.
  destruct c as [[] [] [] [] [] [] [] []]; vm_compute;
    intros H; try discriminate H; reflexivity.
Qed.

(** *** [splitlines] *)

Lemma splitlines_nil s : splitlines s = [] <-> s = "".
Proof.
  split; [|intros ->; reflexivity].
  destruct s as [|c r]; [reflexivity|]. simpl.
  destruct (islinebreak c); [discriminate|].
  destruct (splitlines r); discriminate.
Qed.

(** Up to its first line boundary, a text is its first line. *)
Lemma splitlines_first_line l b rest :
  has_linebreak l = false -> islinebreak b = true -> Ascii.eqb b CR = false ->
  splitlines (l +:+ String b rest) = l :: splitlines rest.
Proof.
  intros Hl Hb Hcr. induction l as [|c l IH].
  - simpl. rewrite Hb, Hcr. reflexivity.
  - simpl in Hl. apply orb_false_iff in Hl as [Hc Hl].
    rewrite append_cons. simpl. rewrite Hc, (IH Hl). reflexivity.
Qed.

(** A carriage return and line feed together are one boundary. *)
Lemma splitlines_first_line_crlf l rest :
  has_linebreak l = false ->
  splitlines (l +:+ String CR (String LF rest)) = l :: splitlines rest.
Proof.
  intros Hl. induction l as [|c l IH].
  - reflexivity.
  - simpl in Hl. apply orb_false_iff in Hl as [Hc Hl].
    rewrite append_cons. simpl. rewrite Hc.
    change (match splitlines (l +:+ String CR (String LF rest)) with
            | [] => [String c ""]
            | l0 :: ls => String c l0 :: ls
            end = String c l :: splitlines rest).
    rewrite (IH Hl). reflexivity.
Qed.

(** A text of one line is that line and at most one boundary. *)
Lemma splitlines_single t : forall l,
  splitlines t = [l] -> exists e, t = l +:+ e /\ all_space e = true.
Proof.
  induction t as [|c r IH]; intros l Hs; [discriminate|].
  simpl in Hs. destruct (islinebreak c) eqn:Hc.
  - injection Hs as <- Hrest. exists (String c r). split; [reflexivity|].
    simpl. rewrite (islinebreak_isspace c Hc). simpl.
    destruct (Ascii.eqb c CR).
    + destruct r as [|c' r']; [reflexivity|].
      destruct (Ascii.eqb_spec c' LF) as [->|Hne].
      * apply splitlines_nil in Hrest. subst r'. reflexivity.
      * apply splitlines_nil in Hrest. discriminate.
    + apply splitlines_nil in Hrest. subst r. reflexivity.
  - destruct (splitlines r) as [|l' ls] eqn:Hr.
    + injection Hs as <-. apply splitlines_nil in Hr. subst r.
      exists "". split; reflexivity.
    + injection Hs as <- ->. destruct (IH l' eq_refl) as (e & -> & He).
      exists e. split; [reflexivity|exact He].
Qed.

(** No line that [splitlines] returns holds a line boundary. *)
Lemma splitlines_no_linebreak_upto n : forall s,
  (String.length s <= n)%nat ->
  Forall (fun l => has_linebreak l = false) (splitlines s).
Proof.
  induction n as [|n IH]; intros s Hn.
  - destruct s; [constructor|simpl in Hn; lia].
  - destruct s as [|c r]; [constructor|]. simpl in Hn. simpl.
    assert (Hr : Forall (fun l => has_linebreak l = false) (splitlines r))
      by (apply IH; lia).
    destruct (islinebreak c) eqn:Hc.
    + constructor; [reflexivity|].
      destruct (Ascii.eqb c CR); [|exact Hr].
      destruct r as [|c' r']; [exact Hr|].
      destruct (Ascii.eqb c' LF); [|exact Hr].
      apply IH. simpl in Hn. lia.
    + destruct (splitlines r) as [|l ls].
      * constructor; [simpl; rewrite Hc; reflexivity|constructor].
      * constructor; [|exact (List.Forall_inv_tail Hr)].
        simpl. rewrite Hc. exact (List.Forall_inv Hr).
Qed.

Lemma splitlines_no_linebreak s l :
  In l (splitlines s) -> has_linebreak l = false.
Proof.
  intros Hin.
  pose proof (splitlines_no_linebreak_upto (String.length s) s (le_n _)) as H.
  rewrite List.Forall_forall in H. exact (H l Hin).
Qed.

(** The text before the first line boundary is the first line. *)
Lemma splitlines_head l b rest :
  has_linebreak l = false -> islinebreak b = true ->
  exists ls, splitlines (l +:+ String b rest) = l :: ls.
Proof.
  intros Hl Hb. induction l as [|c l IH].
  - change ("" +:+ String b rest) with (String b rest). simpl. rewrite Hb. eauto.
  - simpl in Hl. apply orb_false_iff in Hl as [Hc Hl].
    destruct (IH Hl) as [ls Hls].
    rewrite append_cons. simpl. rewrite Hc, Hls. eauto.
Qed.

(** *** [strip] *)

Lemma lstrip_all_space s : all_space s = true -> lstrip s = "".
Proof.
  induction s as [|c r IH]; [reflexivity|]. simpl.
  intros H. apply andb_true_iff in H as [-> Hr]. exact (IH Hr).
Qed.

Lemma rstrip_all_space s : all_space s = true -> rstrip s = "".
Proof.
  induction s as [|c r IH]; [reflexivity|]. simpl.
  intros H. apply andb_true_iff in H as [-> Hr]. rewrite (IH Hr). reflexivity.
Qed.

Lemma rstrip_empty_all_space s : rstrip s = "" -> all_space s = true.
Proof.
  induction s as [|c r IH]; [reflexivity|]. simpl.
  destruct (rstrip r) as [|c' r']; [|discriminate].
  destruct (isspace c); [|discriminate]. intros _. exact (IH eq_refl).
Qed.

Lemma rstrip_append_space x e : all_space e = true -> rstrip (x +:+ e) = rstrip x.
Proof.
  intros He. induction x as [|c r IH].
  - change ("" +:+ e) with e. apply rstrip_all_space, He.
  - rewrite append_cons. cbn [rstrip]. rewrite IH. reflexivity.
Qed.

Lemma strip_append_space l e : all_space e = true -> strip (l +:+ e) = strip l.
Proof.
  intros He. unfold strip. induction l as [|c r IH].
  - change ("" +:+ e) with e. rewrite (lstrip_all_space e He). reflexivity.
  - rewrite append_cons. cbn [lstrip]. destruct (isspace c); [exact IH|].
    apply (rstrip_append_space (String c r) e He).
Qed.

(** [lstrip] drops a prefix of white space, [rstrip] a suffix. *)
Lemma lstrip_decomposes s :
  exists pre, s = pre +:+ lstrip s /\ all_space pre = true.
Proof.
  induction s as [|c r IH].
  - exists "". split; reflexivity.
  - simpl. destruct (isspace c) eqn:Hc.
    + destruct IH as (pre & Hs & Hp). exists (String c pre). split.
      * rewrite append_cons. f_equal. exact Hs.
      * simpl. rewrite Hc. exact Hp.
    + exists "". split; reflexivity.
Qed.

Lemma rstrip_decomposes s :
  exists post, s = rstrip s +:+ post /\ all_space post = true.
Proof.
  induction s as [|c r IH].
  - exists "". split; reflexivity.
  - destruct IH as (post & Hs & Hp). simpl.
    destruct (rstrip r) as [|c' r'] eqn:Hr.
    + destruct (isspace c) eqn:Hc.
      * exists (String c r). split; [reflexivity|].
        simpl. rewrite Hc. apply rstrip_empty_all_space, Hr.
      * exists post. split; [|exact Hp].
        rewrite append_cons. f_equal. exact Hs.
    + exists post. split; [|exact Hp].
      rewrite append_cons. f_equal. exact Hs.
Qed.

(** [strip] keeps the text between the white space at both ends. *)
Lemma strip_decomposes s :
  exists pre post,
    s = pre +:+ strip s +:+ post
    /\ all_space pre = true /\ all_space post = true.
Proof.
  destruct (lstrip_decomposes s) as (pre & Hs & Hp).
  destruct (rstrip_decomposes (lstrip s)) as (post & Hl & Hq).
  exists pre, post. unfold strip. rewrite <- Hl. auto.
Qed.

Lemma strip_all_space s : all_space s = true <-> strip s = "".
Proof.
  split.
  - intros H. unfold strip. rewrite (lstrip_all_space s H). reflexivity.
  - intros H. destruct (strip_decomposes s) as (pre & post & Hs & Hp & Hq).
    rewrite Hs, H, !all_space_append, Hp, Hq. reflexivity.
Qed.

Lemma strip_no_linebreak s : has_linebreak s = false -> has_linebreak (strip s) = false.
Proof.
  intros H. destruct (strip_decomposes s) as (pre & post & Hs & _ & _).
  rewrite Hs, !has_linebreak_append in H.
  apply orb_false_iff in H as [_ H]. apply orb_false_iff in H as [H _]. exact H.
Qed.

End TextFacts.

(** ** More about [suffix] *)

Module SuffixFacts.
Import PyStr PurePath TextFacts.

Lemma rfind_append_last c x y :
  rfind c y = None ->
  rfind c (x +:+ String c y) = Some (String.length x).
Proof.
  intros Hy. induction x as [|a x IH].
  - change ("" +:+ String c y) with (String c y). simpl.
    rewrite Hy, Ascii.eqb_refl. reflexivity.
  - rewrite append_cons. simpl. rewrite IH. reflexivity.
Qed.

Lemma substring_whole s : substring 0 (String.length s) s = s.
Proof. induction s as [|c r IH]; [reflexivity|]. simpl. f_equal. exact IH. Qed.

Lemma slice_from_append x e : slice_from (String.length x) (x +:+ e) = e.
Proof.
  unfold slice_from. rewrite length_append.
  replace (String.length x + String.length e - String.length x)%nat
    with (String.length e) by lia.
  induction x as [|a x IH]; [apply substring_whole|exact IH].
Qed.

Lemma slice_from_splits s : forall i,
  (i <= String.length s)%nat -> s = substring 0 i s +:+ slice_from i s.
Proof.
  induction s as [|c r IH]; intros i Hi.
  - simpl in Hi. replace i with O by lia. reflexivity.
  - destruct i as [|i].
    + unfold slice_from. rewrite Nat.sub_0_r, substring_whole. reflexivity.
    + simpl in Hi. change (String c r = String c (substring 0 i r +:+ slice_from i r)).
      f_equal. apply IH. lia.
Qed.

Lemma substring_nonempty s i :
  (0 < i)%nat -> (i <= String.length s)%nat -> substring 0 i s <> "".
Proof.
  destruct i as [|i]; [lia|]. destruct s as [|c r]; simpl; [lia|discriminate].
Qed.

(** Only the full stop lowers to the full stop. *)
Lemma lower_char_dot c : lower_char c = "."%char -> c = "."%char.
Proof.
  destruct c as [[] [] [] [] [] [] [] []]; vm_compute;
    intros H; try discriminate H; reflexivity.
Qed.

Lemma lower_svg e :
  lower e = ".svg" ->
  exists a b c, e = String "." (String a (String b (String c "")))
                /\ rfind "." (String a (String b (String c ""))) = None.
Proof.
  destruct e as [|d [|a [|b [|c [|x e]]]]]; try discriminate.
  simpl. intros [= Hd Ha Hb Hc]. apply lower_char_dot in Hd. subst d.
  exists a, b, c. split; [reflexivity|].
  assert (Hn : forall y z, lower_char y = z -> z <> "."%char -> Ascii.eqb y "." = false).
  { intros y z Hy Hz. apply Ascii.eqb_neq. intros ->. apply Hz. rewrite <- Hy. reflexivity. }
  rewrite (Hn a _ Ha), (Hn b _ Hb), (Hn c _ Hc) by discriminate. reflexivity.
Qed.

End SuffixFacts.

(** ** More about the file system *)

Module FSMore.
Import PurePath FS FSFacts.

(** [exist_ok]: making a directory that exists changes nothing. *)
Lemma mkdir_parents_existing p : forall n,
  is_dir p n = true -> mkdir_parents p n = Ok n.
Proof.
  induction p as [|c p IH]; intros [f|ch] Hd; try discriminate Hd.
  - reflexivity.
  - rewrite is_dir_cons in Hd. simpl.
    destruct (ch !! c) as [sub|] eqn:E; [|discriminate]. simpl.
    rewrite (IH sub Hd). f_equal. f_equal. apply insert_id, E.
Qed.

(** The exceptions of [mkdir_parents]: a file lies on the way
    ([NotADirectoryError]) or at the path itself ([FileExistsError]). *)
Lemma mkdir_parents_raises p : forall n e,
  mkdir_parents p n = Raise e ->
  e = Uncaught NotADirectoryError \/ e = Uncaught FileExistsError.
Proof.
  induction p as [|c p IH]; intros [f|ch] e; simpl; try discriminate.
  - intros [= <-]. auto.
  - intros [= <-]. auto.
  - destruct (mkdir_parents p _) as [sub|e0] eqn:E; [discriminate|].
    intros [= <-]. exact (IH _ _ E).
Qed.


(** [stat] finds what [lookup_path] finds. *)
Lemma stat_lookup p : forall n x, stat p n = Ok x <-> lookup_path p n = Some x.
Proof.
  induction p as [|c p IH]; intros n x; simpl.
  - split; congruence.
  - destruct n as [f|ch]; [split; discriminate|].
    destruct (ch !! c); [apply IH|split; discriminate].
Qed.

Lemma stat_raises p : forall n e,
  stat p n = Raise e ->
  lookup_path p n = None
  /\ (e = Uncaught FileNotFoundError \/ e = Uncaught NotADirectoryError).
Proof.
  induction p as [|c p IH]; intros [f|ch] e; simpl; try discriminate.
  - intros [= <-]. auto.
  - destruct (ch !! c); [apply IH|]. intros [= <-]. auto.
Qed.

(** A directory lies in a directory. *)
Lemma is_dir_parent p : forall n, is_dir p n = true -> is_dir (parent p) n = true.
Proof.
  induction p as [|c p IH]; intros n Hd; [exact Hd|].
  destruct n as [f|ch]; [unfold is_dir in Hd; simpl in Hd; discriminate Hd|].
  destruct p as [|d p]; [reflexivity|].
  rewrite parent_cons, is_dir_cons. rewrite is_dir_cons in Hd.
  destruct (ch !! c) as [sub|]; [exact (IH sub Hd)|discriminate].
Qed.

(** A file cannot be written where a directory is. *)
Lemma write_file_onto_dir p : forall c n,
  is_dir p n = true -> write_file p c n = Raise (Uncaught IsADirectoryError).
Proof.
  induction p as [|d p IH]; intros c n Hd; [reflexivity|].
  destruct n as [f|ch]; [unfold is_dir in Hd; simpl in Hd; discriminate Hd|].
  rewrite is_dir_cons in Hd. destruct p as [|e p].
  - simpl. destruct (ch !! d) as [[f|ch0]|]; [discriminate Hd|reflexivity|discriminate Hd].
  - rewrite write_file_deep_eq. destruct (ch !! d) as [sub|]; [|discriminate].
    rewrite (IH c sub Hd). reflexivity.
Qed.

End FSMore.

(** ** Further properties of the script *)

Section MoreProperties.

Context `{lib : Library}.
Import PyStr PyStrFacts Text TextFacts FS FSFacts FSMore.

Lemma read_text_found p fs text :
  lookup_path p fs = Some (File (FS.Text text)) -> read_text p fs = (Ok text, fs).
Proof.
  intros Hl. apply stat_lookup in Hl. unfold read_text, inspect.
  rewrite Hl. reflexivity.
Qed.

Lemma read_smiles_inline args stdin fs s :
  smiles args = Some s -> s <> "" ->
  read_smiles args stdin fs
  = (Ok (strip (if String.eqb s "-" then stdin else s)), fs).
Proof.
  intros Hs Hne. unfold read_smiles, smiles_given.
  rewrite Hs, (proj2 (truthy_true s) Hne). simpl.
  destruct (String.eqb s "-"); reflexivity.
Qed.

(** X1. A usable [--smiles] wins over [--input]: neither the value
    of [--input] nor the file system (a missing or unreadable input
    file, say) has any effect on the resolved text; and when the
    argument is not the sentinel, the text is resolved without error:
    it is the argument, trimmed. *)
Theorem smiles_precedes_input args stdin fs s :
  smiles args = Some s -> s <> "" ->
  (forall v fs',
     fst (read_smiles (with_input v args) stdin fs')
     = fst (read_smiles args stdin fs))
  /\ (s <> "-" -> forall stdin', fst (read_smiles args stdin' fs) = Ok (strip s)).
Proof.
  intros Hs Hne. split.
  - intros v fs'. rewrite (read_smiles_inline _ _ _ s Hs Hne).
    rewrite (read_smiles_inline (with_input v args) _ _ s Hs Hne). reflexivity.
  - intros Hd stdin'. rewrite (read_smiles_inline _ _ _ s Hs Hne).
    destruct (String.eqb_spec s "-"); [contradiction|reflexivity].
Qed.

(** X2. Standard input is read for the sentinel only: with any other
    [--smiles], or none, the text on standard input changes neither the
    resolved text nor the run. *)
Theorem stdin_only_for_sentinel args stdin1 stdin2 fs :
  smiles args <> Some "-" ->
  read_smiles args stdin1 fs = read_smiles args stdin2 fs
  /\ main args stdin1 fs = main args stdin2 fs.
Proof.
  intros Hs.
  assert (Hr : read_smiles args stdin1 fs = read_smiles args stdin2 fs).
  { unfold read_smiles. destruct (smiles_given args); [|reflexivity].
    destruct (smiles args) as [s|]; simpl; [|reflexivity].
    destruct (String.eqb_spec s "-"); [congruence|reflexivity]. }
  split; [exact Hr|]. rewrite !main_run, Hr. reflexivity.
Qed.

(** X3. A [--smiles] made of white space only is not empty, so it is
    taken as the source (unlike the empty one): the resolved text is
    the empty text, whatever [--input] says. *)
Theorem blank_smiles_is_taken args stdin fs s :
  smiles args = Some s -> s <> "" -> all_space s = true ->
  read_smiles args stdin fs = (Ok "", fs).
Proof.
  intros Hs Hne Ha. rewrite (read_smiles_inline _ _ _ s Hs Hne).
  destruct (String.eqb_spec s "-") as [->|_]; [discriminate Ha|].
  rewrite (proj1 (strip_all_space s) Ha). reflexivity.
Qed.

(** X4. Reading from a file that can be read: input resolution stops
    on [IndexError] exactly when the file is empty, and the run then
    ends with that exception and nothing written. *)
Theorem empty_input_file args stdin fs p text :
  smiles_given args = false -> input args = Some p ->
  read_text p fs = (Ok text, fs) ->
  (fst (read_smiles args stdin fs) = Raise (Uncaught IndexError) <-> text = "")
  /\ (text = "" -> main args stdin fs = (Raise (Uncaught IndexError), fs)).
Proof.
  intros Hg Hi Ht.
  assert (Hr : fst (read_smiles args stdin fs) = Raise (Uncaught IndexError) <-> text = "").
  { rewrite (read_smiles_from_file _ _ _ p Hg Hi), Ht. rewrite <- splitlines_nil.
    destruct (splitlines text); simpl; split; congruence. }
  split; [exact Hr|].
  intros He. rewrite main_run, (proj2 Hr He). reflexivity.
Qed.

(** X5. Only the first line of the input file counts: whatever follows
    the first line boundary has no effect on the resolved text. *)
Theorem first_line_only args stdin fs p line b rest :
  smiles_given args = false -> input args = Some p ->
  read_text p fs = (Ok (line +:+ String b rest), fs) ->
  has_linebreak line = false -> islinebreak b = true ->
  read_smiles args stdin fs = (Ok (strip line), fs).
Proof.
  intros Hg Hi Ht Hl Hb.
  rewrite (read_smiles_from_file _ _ _ p Hg Hi), Ht.
  destruct (splitlines_head line b rest Hl Hb) as [ls ->]. reflexivity.
Qed.

(** X6. A file of one line resolves to the text that the same content
    on standard input resolves to. *)
Theorem single_line_file_same_as_stdin args stdin fs p text line :
  smiles_given args = false -> input args = Some p ->
  read_text p fs = (Ok text, fs) ->
  splitlines text = [line] ->
  read_smiles args stdin fs
  = read_smiles (with_smiles (Some "-") args) text fs.
Proof.
  intros Hg Hi Ht Hl.
  rewrite (read_smiles_from_file _ _ _ p Hg Hi), Ht, Hl.
  destruct (splitlines_single text line Hl) as (e & -> & He).
  rewrite (read_smiles_inline _ _ _ "-") by (reflexivity || discriminate).
  simpl. rewrite (strip_append_space line e He). reflexivity.
Qed.

(** X7. An inline text is passed on as it is but for the white space
    at its two ends: nothing inside it is changed. *)
Theorem inline_only_trimmed args stdin fs s :
  smiles args = Some s -> s <> "" -> s <> "-" ->
  exists r pre post,
    read_smiles args stdin fs = (Ok r, fs)
    /\ s = pre +:+ r +:+ post
    /\ all_space pre = true /\ all_space post = true.
Proof.
  intros Hs Hne Hd. rewrite (read_smiles_inline _ _ _ s Hs Hne).
  destruct (String.eqb_spec s "-"); [contradiction|].
  destruct (strip_decomposes s) as (pre & post & Hdec).
  exists (strip s), pre, post. split; [reflexivity|exact Hdec].
Qed.

(** X8. The text resolved from an input file never holds a line
    boundary (the text from standard input or from [--smiles] may). *)
Theorem file_text_has_no_linebreak args stdin fs r :
  smiles_given args = false ->
  fst (read_smiles args stdin fs) = Ok r ->
  has_linebreak r = false.
Proof.
  intros Hg Hr. destruct (input args) as [p|] eqn:Hi.
  - rewrite (read_smiles_from_file _ _ _ p Hg Hi) in Hr.
    destruct (read_text p fs) as [[text|e] fs1]; [|discriminate].
    destruct (splitlines text) as [|first rest] eqn:Hl; [discriminate|].
    injection Hr as <-. apply strip_no_linebreak.
    apply (splitlines_no_linebreak text). rewrite Hl. left. reflexivity.
  - unfold read_smiles in Hr. rewrite Hg, Hi in Hr. discriminate.
Qed.

(** X9. The input path that cannot be read: a path that leads nowhere
    ends the run with [FileNotFoundError] or [NotADirectoryError], a
    directory with [IsADirectoryError]; in both cases nothing is
    written. *)
Theorem unreadable_input args stdin fs p :
  smiles_given args = false -> input args = Some p ->
  (lookup_path p fs = None ->
     exists e, main args stdin fs = (Raise (Uncaught e), fs)
               /\ (e = FileNotFoundError \/ e = NotADirectoryError))
  /\ (is_dir p fs = true ->
        main args stdin fs = (Raise (Uncaught IsADirectoryError), fs)).
Proof.
  intros Hg Hi. split.
  - intros Hn. rewrite main_run, (read_smiles_from_file _ _ _ p Hg Hi).
    unfold read_text, inspect.
    destruct (stat p fs) as [x|e] eqn:Hs.
    + apply stat_lookup in Hs. congruence.
    + destruct (stat_raises _ _ _ Hs) as [_ [->| ->]]; simpl; eauto.
  - intros Hd. rewrite main_run, (read_smiles_from_file _ _ _ p Hg Hi).
    unfold read_text, inspect, is_dir in *.
    destruct (lookup_path p fs) as [[f|ch]|] eqn:Hl; try discriminate.
    apply stat_lookup in Hl. rewrite Hl. reflexivity.
Qed.

(** X10. What a normal end of [main] means: the text was resolved, the
    parser gave a molecule for it, and the output file holds the
    drawing of that molecule after [Compute2DCoords], at the size given:
    the SVG text of the drawer for an [.svg] suffix, else the bytes the
    encoder wrote.  The exit status is 0. *)
Theorem main_success_effect args stdin fs fs' :
  main args stdin fs = (Ok tt, fs') ->
  exists s m,
    fst (read_smiles args stdin fs) = Ok s
    /\ MolFromSmiles s = Some m
    /\ (if String.eqb (lower (suffix (output args))) ".svg" then
          exists text,
            MolDraw2DSVG (fst (size args)) (snd (size args)) (Compute2DCoords m)
            = Some text
            /\ lookup_path (output args) fs' = Some (File (FS.Text text))
        else
          exists b,
            encode (MolToImage (Compute2DCoords m) (size args)) (output args)
            = Some (Complete b)
            /\ lookup_path (output args) fs' = Some (File (Binary b)))
    /\ exit_status (fst (main args stdin fs)) = 0%Z.
Proof.
  intros Hm. rewrite Hm. rewrite main_run in Hm.
  destruct (fst (read_smiles args stdin fs)) as [s|e]; [|discriminate].
  destruct (MolFromSmiles s) as [m|] eqn:Hp; [|discriminate].
  exists s, m. split; [reflexivity|]. split; [exact Hp|]. split; [|reflexivity].
  apply save_drawing_inv in Hm as (fs1 & c & _ & Hw & Hc).
  apply write_file_lookup in Hw.
  destruct (String.eqb _ _).
  - destruct Hc as (text & Ht & ->). eauto.
  - destruct Hc as (b & He & ->). eauto.
Qed.


(** Whatever its outcome, [save_drawing] changes nothing off the way
    to the output path. *)
Lemma save_drawing_frame molecule out sz fs q :
  ~ q `prefix_of` out ->
  lookup_path q (snd (save_drawing molecule out sz fs)) = lookup_path q fs.
Proof.
  intros Hq.
  destruct (mkdir_parents (parent out) fs) as [fs1|e] eqn:Hm;
    [|rewrite (save_drawing_mkdir_raises _ _ _ _ _ Hm); reflexivity].
  rewrite (save_drawing_after_mkdir _ _ _ _ _ Hm).
  assert (H1 : lookup_path q fs1 = lookup_path q fs).
  { eapply mkdir_parents_frame; [exact Hm|].
    intros Hp. apply Hq, prefix_parent, Hp. }
  assert (Hw : forall c fs', write_file out c fs1 = Ok fs' ->
                             lookup_path q fs' = lookup_path q fs).
  { intros c fs' Hw. rewrite (write_file_frame _ _ _ _ q Hw Hq). exact H1. }
  assert (Hu : forall c,
    lookup_path q (snd (update (write_file out c) fs1)) = lookup_path q fs).
  { intros c. unfold update.
    destruct (write_file out c fs1) as [fs'|e] eqn:E; [exact (Hw _ _ E)|exact H1]. }
  destruct (String.eqb _ _).
  - destruct (MolDraw2DSVG _ _ _); [apply Hu|exact H1].
  - unfold image_save. destruct (encode _ _) as [[b|partial]|];
      [apply Hu| |exact H1].
    destruct (write_file out (Binary partial) fs1) as [fs'|e] eqn:E; [|exact H1].
    simpl. destruct (lookup_path out fs1); [exact (Hw _ _ E)|exact H1].
Qed.

(** X12. Whatever the outcome of a run, every path that does not lead
    to the output file holds afterwards what it held before: no file or
    directory off the way to the output is changed. *)
Theorem main_frame args stdin fs q :
  ~ q `prefix_of` output args ->
  lookup_path q (snd (main args stdin fs)) = lookup_path q fs.
Proof.
  intros Hq. rewrite main_run.
  destruct (fst (read_smiles args stdin fs)) as [s|e]; [|reflexivity].
  destruct (MolFromSmiles s) as [m|]; [|reflexivity].
  apply save_drawing_frame, Hq.
Qed.

(** Making the directories leaves a directory at the output path in
    place, and then makes nothing. *)
Lemma mkdir_parent_of_directory out fs :
  is_dir out fs = true -> mkdir_parents (parent out) fs = Ok fs.
Proof. intros Hd. apply mkdir_parents_existing, is_dir_parent, Hd. Qed.

Lemma mkdir_parent_is_dir_output out fs fs1 :
  mkdir_parents (parent out) fs = Ok fs1 -> is_dir out fs1 = is_dir out fs.
Proof.
  intros Hm. destruct out as [|c out].
  - simpl in Hm. destruct fs; [discriminate|]. congruence.
  - unfold is_dir. rewrite (mkdir_parents_frame _ _ _ (c :: out) Hm); [reflexivity|].
    apply not_prefix_parent. discriminate.
Qed.



(** X14. A file on the way to the output directory stops
    [save_drawing] with [NotADirectoryError] or [FileExistsError], and
    the file system stays as it was. *)
Theorem save_drawing_blocked molecule out sz fs :
  blocked (parent out) fs = true ->
  exists e, save_drawing molecule out sz fs = (Raise (Uncaught e), fs)
            /\ (e = NotADirectoryError \/ e = FileExistsError).
Proof.
  intros Hb. unfold save_drawing, bind, mkdir, update.
  destruct (mkdir_parents (parent out) fs) as [fs1|e] eqn:Hm.
  - assert (blocked (parent out) fs = false) by (apply mkdir_parents_blocked; eauto).
    congruence.
  - destruct (mkdir_parents_raises _ _ _ Hm) as [-> | ->]; eauto.
Qed.

(** X15. An output path that is a directory is never written: the file
    system stays as it was, and the run stops with [IsADirectoryError]
    when the file is opened, unless the library has raised before that
    (the drawer for an [.svg] suffix; for any other suffix the imaging
    library finding no format for the path). *)
Theorem save_drawing_onto_directory molecule out sz fs :
  is_dir out fs = true ->
  save_drawing molecule out sz fs
  = (Raise (Uncaught
       (if String.eqb (lower (suffix out)) ".svg" then
          match MolDraw2DSVG (fst sz) (snd sz) molecule with
          | Some _ => IsADirectoryError
          | None => DrawingError
          end
        else
          match encode (MolToImage molecule sz) out with
          | Some _ => IsADirectoryError
          | None => ImageSaveError
          end)),
     fs).
Proof.
  intros Hd.
  rewrite (save_drawing_after_mkdir _ _ _ _ _ (mkdir_parent_of_directory _ _ Hd)).
  unfold write_text, image_save, update.
  destruct (String.eqb _ _).
  - destruct (MolDraw2DSVG _ _ _); [|reflexivity].
    rewrite (write_file_onto_dir _ _ _ Hd). reflexivity.
  - destruct (encode _ _) as [[b|partial]|]; [| |reflexivity];
      rewrite (write_file_onto_dir _ _ _ Hd); reflexivity.
Qed.

(** X16. No rollback: when the imaging library raises for a suffix
    other than [.svg] (it has no format for the path, or its encoder
    raises on the file it opened), the run stops with its exception
    after the directories were made, and they stay. *)
Theorem raster_failure_keeps_directories molecule out sz fs :
  String.eqb (lower (suffix out)) ".svg" = false ->
  encode (MolToImage molecule sz) out = None
  \/ (exists partial, encode (MolToImage molecule sz) out = Some (Broken partial))
     /\ is_dir out fs = false ->
  blocked (parent out) fs = false ->
  fst (save_drawing molecule out sz fs) = Raise (Uncaught ImageSaveError)
  /\ forall q, q `prefix_of` parent out ->
       is_dir q (snd (save_drawing molecule out sz fs)) = true.
Proof.
  intros Hs He Hb. apply mkdir_parents_blocked in Hb as [fs1 Hm].
  rewrite (save_drawing_raster _ _ _ _ fs1 Hs Hm).
  assert (Hdirs : forall q, q `prefix_of` parent out -> is_dir q fs1 = true).
  { intros q Hq. eapply mkdir_parents_is_dir; eassumption. }
  unfold image_save. destruct He as [-> | [[partial ->] Hd]].
  - split; [reflexivity|exact Hdirs].
  - destruct (write_file_ok out (Binary partial) fs1) as [fs' Hw].
    + apply Hdirs. reflexivity.
    + rewrite (mkdir_parent_is_dir_output _ _ _ Hm). exact Hd.
    + rewrite Hw. simpl. split; [reflexivity|]. intros q Hq.
      destruct (lookup_path out fs1); [|exact (Hdirs q Hq)].
      exact (proj1 (write_file_parents _ _ _ _ q Hw Hq)).
Qed.


End MoreProperties.

(** X18. Which output names give SVG: exactly those that end in
    [.svg], in any mix of cases, after at least one other character.
    (So a file named just [.svg] is drawn as a raster image.) *)
Theorem svg_selected_iff_name (out : Path) :
  PyStr.lower (suffix out) = ".svg"
  <-> exists stem ext,
        name out = stem +:+ ext /\ stem <> "" /\ PyStr.lower ext = ".svg".
Proof.
  split.
  - unfold suffix. destruct (PyStr.rfind "." (name out)) as [i|]; [|discriminate].
    destruct (0 <? i)%nat eqn:H0; [|discriminate].
    destruct (i <? String.length (name out) - 1)%nat eqn:H1; [|discriminate].
    simpl. intros Hl. apply Nat.ltb_lt in H0, H1.
    exists (substring 0 i (name out)), (PyStr.slice_from i (name out)).
    split; [apply SuffixFacts.slice_from_splits; lia|].
    split; [apply SuffixFacts.substring_nonempty; lia|exact Hl].
  - intros (stem & ext & Hn & Hne & Hl).
    destruct (SuffixFacts.lower_svg ext Hl) as (a & b & c & -> & Hr).
    unfold suffix. rewrite Hn, (SuffixFacts.rfind_append_last _ _ _ Hr).
    rewrite TextFacts.length_append.
    assert (0 < String.length stem)%nat by (destruct stem; [congruence|simpl; lia]).
    replace (0 <? String.length stem)%nat with true
      by (symmetry; apply Nat.ltb_lt; lia).
    replace (String.length stem <? _)%nat with true
      by (symmetry; apply Nat.ltb_lt; simpl; lia).
    simpl. rewrite SuffixFacts.slice_from_append. exact Hl.
Qed.

(** ** Further sample runs *)

Module MoreRuns.
Import PyStr Text FS Examples.

Lemma smiles_precedes_input_witness :
  fst (read_smiles (lib := lenient)
         (with_input (Some ["missing.smi"]) (inline " CCO " ["out.png"]))
         "" empty_fs)
  = fst (read_smiles (lib := lenient) (inline " CCO " ["out.png"]) "" empty_fs)
  /\ fst (read_smiles (lib := lenient) (inline " CCO " ["out.png"]) "C" empty_fs)
     = Ok "CCO".
Proof.
  destruct (smiles_precedes_input (lib := lenient) (inline " CCO " ["out.png"])
              "" empty_fs " CCO " eq_refl ltac:(discriminate)) as [Hi Hs].
  split; [apply Hi|apply Hs; discriminate].
Defined.

Lemma stdin_only_for_sentinel_witness :
  main (lib := lenient) (inline "CCO" ["out.svg"]) "C" empty_fs
  = main (lib := lenient) (inline "CCO" ["out.svg"]) "N" empty_fs.
Proof.
  apply (proj2 (stdin_only_for_sentinel (lib := lenient) (inline "CCO" ["out.svg"])
                  "C" "N" empty_fs ltac:(discriminate))).
Defined.

Lemma blank_smiles_is_taken_witness :
  let args := with_input (Some ["in.smi"]) (inline "  " ["out.png"]) in
  read_smiles (lib := lenient) args "" (fs_with "in.smi" "CCO")
  = (Ok "", fs_with "in.smi" "CCO").
Proof.
  intros args.
  apply (blank_smiles_is_taken (lib := lenient) args "" (fs_with "in.smi" "CCO") "  ");
    [reflexivity|discriminate|reflexivity].
Defined.

Lemma empty_input_file_witness :
  main (lib := lenient) (from_file ["in.smi"] ["out.png"]) "" (fs_with "in.smi" "")
  = (Raise (Uncaught IndexError), fs_with "in.smi" "").
Proof.
  apply (proj2 (empty_input_file (lib := lenient) (from_file ["in.smi"] ["out.png"])
                  "" (fs_with "in.smi" "") ["in.smi"] "" eq_refl eq_refl eq_refl)).
  reflexivity.
Defined.

Lemma first_line_only_witness :
  let text := "CCO" +:+ String LF "this line is not read" in
  read_smiles (lib := lenient) (from_file ["in.smi"] ["out.png"]) ""
    (fs_with "in.smi" text)
  = (Ok "CCO", fs_with "in.smi" text).
Proof.
  intros text.
  apply (first_line_only (lib := lenient) (from_file ["in.smi"] ["out.png"]) ""
           (fs_with "in.smi" text) ["in.smi"] "CCO" LF "this line is not read");
    reflexivity.
Defined.

Lemma single_line_file_same_as_stdin_witness :
  let text := " CCO" +:+ String CR nl in
  read_smiles (lib := lenient) (from_file ["in.smi"] ["out.png"]) ""
    (fs_with "in.smi" text)
  = read_smiles (lib := lenient)
      (with_smiles (Some "-") (from_file ["in.smi"] ["out.png"])) text
      (fs_with "in.smi" text).
Proof.
  intros text.
  apply (single_line_file_same_as_stdin (lib := lenient)
           (from_file ["in.smi"] ["out.png"]) "" (fs_with "in.smi" text)
           ["in.smi"] text " CCO"); reflexivity.
Defined.

Lemma inline_only_trimmed_witness :
  exists r pre post,
    read_smiles (lib := lenient) (inline "  C C " ["out.png"]) "" empty_fs
    = (Ok r, empty_fs)
    /\ "  C C " = pre +:+ r +:+ post
    /\ all_space pre = true /\ all_space post = true.
Proof.
  apply (inline_only_trimmed (lib := lenient) (inline "  C C " ["out.png"]) ""
           empty_fs "  C C "); [reflexivity|discriminate|discriminate].
Defined.

Lemma file_text_has_no_linebreak_witness :
  has_linebreak "CCO" = false.
Proof.
  apply (file_text_has_no_linebreak (lib := lenient)
           (from_file ["in.smi"] ["out.png"]) ""
           (fs_with "in.smi" ("CCO" +:+ nl +:+ "C")) "CCO"); reflexivity.
Defined.

Lemma unreadable_input_witness :
  (exists e, main (lib := lenient) (from_file ["missing.smi"] ["out.png"]) ""
               empty_fs = (Raise (Uncaught e), empty_fs)
             /\ (e = FileNotFoundError \/ e = NotADirectoryError))
  /\ main (lib := lenient) (from_file [] ["out.png"]) "" empty_fs
     = (Raise (Uncaught IsADirectoryError), empty_fs).
Proof.
  split.
  - apply (proj1 (unreadable_input (lib := lenient)
                    (from_file ["missing.smi"] ["out.png"]) "" empty_fs
                    ["missing.smi"] eq_refl eq_refl)).
    reflexivity.
  - apply (proj2 (unreadable_input (lib := lenient) (from_file [] ["out.png"]) ""
                    empty_fs [] eq_refl eq_refl)).
    reflexivity.
Defined.

Lemma main_success_effect_witness :
  let args := from_file ["in.smi"] ["pics"; "ethanol.svg"] in
  let fs := fs_with "in.smi" "CCO" in
  exists s m,
    fst (read_smiles (lib := lenient) args "" fs) = Ok s
    /\ MolFromSmiles (Library := lenient) s = Some m
    /\ (exists text,
          MolDraw2DSVG (Library := lenient) 400 300
            (Compute2DCoords (Library := lenient) m) = Some text
          /\ lookup_path ["pics"; "ethanol.svg"]
               (snd (main (lib := lenient) args "" fs))
             = Some (File (FS.Text text)))
    /\ exit_status (fst (main (lib := lenient) args "" fs)) = 0%Z.
Proof.
  intros args fs.
  apply (main_success_effect (lib := lenient) args "" fs
           (snd (main (lib := lenient) args "" fs))).
  reflexivity.
Defined.

Lemma main_frame_witness :
  let args := from_file ["in.smi"] ["pics"; "ethanol.png"] in
  let fs := fs_with "in.smi" "CCO" in
  lookup_path ["in.smi"] (snd (main (lib := lenient) args "" fs))
  = lookup_path ["in.smi"] fs.
Proof.
  intros args fs.
  apply (main_frame (lib := lenient) args "" fs ["in.smi"]).
  intros [k Hk]. discriminate Hk.
Defined.


Lemma save_drawing_blocked_witness :
  let fs := fs_with "pics" "a file, not a directory" in
  exists e, save_drawing (lib := lenient) "CCO" ["pics"; "mol.svg"] default_size fs
            = (Raise (Uncaught e), fs)
            /\ (e = NotADirectoryError \/ e = FileExistsError).
Proof.
  intros fs.
  apply (save_drawing_blocked (lib := lenient) "CCO" ["pics"; "mol.svg"]
           default_size fs).
  reflexivity.
Defined.

Lemma save_drawing_onto_directory_witness :
  let fs := Dir (<["mol.svg" := Dir ∅]> ∅) in
  save_drawing (lib := lenient) "CCO" ["mol.svg"] default_size fs
  = (Raise (Uncaught IsADirectoryError), fs)
  /\ save_drawing (lib := lenient) "CCO" ["mol.svg"] (2 ^ 31, 300)%Z fs
     = (Raise (Uncaught DrawingError), fs).
Proof.
  intros fs. split.
  - exact (save_drawing_onto_directory (lib := lenient) "CCO" ["mol.svg"]
             default_size fs eq_refl).
  - exact (save_drawing_onto_directory (lib := lenient) "CCO" ["mol.svg"]
             (2 ^ 31, 300)%Z fs eq_refl).
Defined.

Lemma raster_failure_keeps_directories_witness :
  let run := save_drawing (lib := lenient) "CCO" ["pics"; "new"; "mol.xyz"]
               default_size empty_fs in
  let run' := save_drawing (lib := lenient) "CCO" ["pics"; "new"; "mol.jpg"]
                default_size empty_fs in
  (fst run = Raise (Uncaught ImageSaveError)
   /\ forall q, q `prefix_of` ["pics"; "new"] -> is_dir q (snd run) = true)
  /\ fst run' = Raise (Uncaught ImageSaveError)
  /\ forall q, q `prefix_of` ["pics"; "new"] -> is_dir q (snd run') = true.
Proof.
  split.
  - apply (raster_failure_keeps_directories (lib := lenient) "CCO"
             ["pics"; "new"; "mol.xyz"] default_size empty_fs);
      [reflexivity|left; reflexivity|reflexivity].
  - apply (raster_failure_keeps_directories (lib := lenient) "CCO"
             ["pics"; "new"; "mol.jpg"] default_size empty_fs);
      [reflexivity| |reflexivity].
    right. split; [exists []; reflexivity|reflexivity].
Defined.


(** A size that is no C int, and an encoder that raises once the file
    is open. *)
Example drawer_raises_after_mkdir :
  let run := main (lib := lenient) (inline "CCO" ["pics"; "mol.svg"]) "" empty_fs in
  fst (main (lib := lenient)
         {| smiles := Some "CCO"; input := None; output := ["pics"; "mol.svg"];
            size := (2 ^ 31, 300)%Z |} "" empty_fs)
  = Raise (Uncaught DrawingError)
  /\ fst run = Ok tt.
Proof. vm_compute. split; reflexivity. Qed.

Example encoder_raises_on_open_file :
  let old := fs_with "mol.jpg" "an older file" in
  let run := save_drawing (lib := lenient) "CCO" ["mol.jpg"] default_size in
  run empty_fs = (Raise (Uncaught ImageSaveError), empty_fs)
  /\ fst (run old) = Raise (Uncaught ImageSaveError)
  /\ lookup_path ["mol.jpg"] (snd (run old)) = Some (File (Binary [])).
Proof. vm_compute. repeat split. Qed.

Example script_runs :
  script (lib := lenient) ["--smiles"; "CCO"; "--output"; "out.svg"] "" empty_fs
  = (0%Z, Nothing, fs_with "out.svg" "<svg>CCO</svg>")
  /\ script (lib := lenient) ["--help"] "" empty_fs = (0%Z, Nothing, empty_fs)
  /\ fst (fst (script (lib := lenient) ["--size"; "big"] "" empty_fs)) = 2%Z.
Proof. vm_compute. repeat split. Qed.

Example svg_names :
  lower (suffix ["mol.SvG"]) = ".svg" /\ lower (suffix [".svg"]) <> ".svg"
  /\ lower (suffix ["mol.svg.png"]) <> ".svg".
Proof. repeat split; discriminate. Qed.

End MoreRuns.
